(** * questrade-api-client: the token-managed API client

    A shallow embedding of [src/questrade-client.ts].  The class
    [QuestradeClient] becomes a record of its four private fields; the two
    things it talks to (the HTTP transport [fetch] and the event emitter)
    and the wall clock live in a [World] that is threaded, together with the
    client, through a small state-and-exception monad [Async] standing for
    the [async] methods of the class.

    The class is embedded twice.  The first embedding reads a response body
    at the type the TypeScript declares for it and has no listener on the
    emitter: it is the client as its types describe it.  The second, in
    [Dynamic], is the client as the JavaScript runs: the body is whatever
    JSON the server sent, a field of the client holds whatever was read from
    it, and the listeners of the emitter run inside [emit].  The two agree
    on the bodies of the declared type when nobody listens. *)

From Stdlib Require Import ZArith String Ascii List Bool Lia DecimalString.
Import ListNotations.

Open Scope string_scope.
Open Scope Z_scope.

(* ================================================================= *)
(** ** Constants and the error class *)

Definition AUTH_URL : string := "https://login.questrade.com/oauth2/token".
Definition CODE_BAD_REQUEST : Z := 400.

(** The field initialiser of [apiServer]. *)
Definition DEFAULT_API_SERVER : string := "https://api01.iq.questrade.com".

(** [class QuestradeApiError extends Error]: [message] is the argument of
    [super], [code] and [body] are the two fields the class adds. *)
Record QuestradeApiError : Type := mkApiError {
  message : string;
  code : Z;
  body : string
}.

(** What an [async] method may reject with: the client's own error class,
    whatever the transport raises ([fetch] that cannot reach the server,
    [res.json()] on a body that is not JSON), or the [TypeError] of the
    language itself (a property of [null], a method of a value that has
    none, an object that cannot be made a string); of the last the model
    keeps the place, not the wording of the engine. *)
Inductive Failure : Type :=
| ApiError (e : QuestradeApiError)
| FetchError (reason : string)
| TypeError (where_ : string).

(* ================================================================= *)
(** ** Bodies and responses *)

(** Parsed JSON, as [res.json()] hands it to [_doApiRequest] (type [any]). *)
#[local] Set Warnings "-register-all".
Inductive Json : Type :=
| JNull
| JBool (b : bool)
| JNumber (n : Z)
| JString (s : string)
| JArray (items : list Json)
| JObject (members : list (string * Json)).

(** Modelled from the spec: the declaration of
    [types.QuestradeTokenRefreshResponse] is in [./api-types], which is not
    among the sources; the success body of the authorization endpoint is
    [{access_token, refresh_token, api_server, expires_in}], three strings
    and a number of seconds. *)
Record QuestradeTokenRefreshResponse : Type := mkTokens {
  access_token : string;
  refresh_token : string;
  api_server : string;
  expires_in : Z
}.

(** A response of node-fetch, as far as the client looks at it: the status,
    the raw body ([res.text()]) and the body parsed at the type the call
    site reads it at ([res.json()], [None] when it does not parse). *)
Record Response (A : Type) : Type := mkResponse {
  status : Z;
  text : string;
  json : option A
}.
Arguments mkResponse {A} _ _ _.
Arguments status {A} _.
Arguments text {A} _.
Arguments json {A} _.

(** [res.ok]: node-fetch answers [status >= 200 && status < 300]. *)
Definition ok {A : Type} (res : Response A) : bool :=
  (200 <=? status res) && (status res <? 300).

(** What the network does with one request: after [elapsed] milliseconds it
    either answers or the transport gives up. *)
Inductive Reply (A : Type) : Type :=
| Answered (elapsed : Z) (res : Response A)
| Unreachable (elapsed : Z) (reason : string).
Arguments Answered {A} _ _.
Arguments Unreachable {A} _ _.

(* ================================================================= *)
(** ** The world around the client *)

Record Request : Type := mkRequest {
  url : string;
  method : string;
  authorization : option string
}.

(** Everything the client does that is visible from outside, in order. *)
Inductive Event : Type :=
| Fetch (req : Request)
| Emit (name : string).

(** [dateNow] is [Date.now()] in milliseconds.  The two scripts are the
    replies the authorization server and the data server will give, in the
    order the requests arrive; [trace] is what has happened so far. *)
Record World : Type := mkWorld {
  dateNow : Z;
  authReplies : list (Reply QuestradeTokenRefreshResponse);
  dataReplies : list (Reply Json);
  trace : list Event
}.

(* ================================================================= *)
(** ** The client *)

Record QuestradeClient : Type := mkClient {
  refreshToken : string;
  accessToken : option string;
  expirationTime : Z;
  apiServer : string
}.

Definition constructor (refreshToken : string) : QuestradeClient :=
  {| refreshToken := refreshToken;
     accessToken := None;
     expirationTime := -1;
     apiServer := DEFAULT_API_SERVER |}.

Definition set_accessToken (v : option string) (c : QuestradeClient) :=
  {| refreshToken := refreshToken c; accessToken := v;
     expirationTime := expirationTime c; apiServer := apiServer c |}.
Definition set_refreshToken (v : string) (c : QuestradeClient) :=
  {| refreshToken := v; accessToken := accessToken c;
     expirationTime := expirationTime c; apiServer := apiServer c |}.
Definition set_apiServer (v : string) (c : QuestradeClient) :=
  {| refreshToken := refreshToken c; accessToken := accessToken c;
     expirationTime := expirationTime c; apiServer := v |}.
Definition set_expirationTime (v : Z) (c : QuestradeClient) :=
  {| refreshToken := refreshToken c; accessToken := accessToken c;
     expirationTime := v; apiServer := apiServer c |}.

Record Machine : Type := mkMachine {
  this : QuestradeClient;
  world : World
}.

(* ================================================================= *)
(** ** The monad of [async] methods *)

Inductive Settled (A : Type) : Type :=
| Fulfilled (value : A)
| Rejected (reason : Failure).
Arguments Fulfilled {A} _.
Arguments Rejected {A} _.

(** One logical task at a time: a method runs from the machine it finds to
    the machine it leaves, its [await]s included.  Calls that overlap in
    time are outside this model. *)
Definition Async (A : Type) : Type := Machine -> Settled A * Machine.

Definition ret {A : Type} (a : A) : Async A := fun m => (Fulfilled a, m).

Definition throw {A : Type} (e : Failure) : Async A :=
  fun m => (Rejected e, m).

Definition bind {A B : Type} (p : Async A) (k : A -> Async B) : Async B :=
  fun m =>
    match p m with
    | (Fulfilled a, m') => k a m'
    | (Rejected e, m') => (Rejected e, m')
    end.

Notation "x <- p ;; k" := (bind p (fun x => k))
  (at level 61, p at next level, right associativity).
Notation "p ;; k" := (bind p (fun _ => k))
  (at level 61, right associativity).

Definition self : Async QuestradeClient := fun m => (Fulfilled (this m), m).

Definition assign (f : QuestradeClient -> QuestradeClient) : Async unit :=
  fun m => (Fulfilled tt, {| this := f (this m); world := world m |}).

Definition happened (e : Event) (ms : Z) (w : World) : World :=
  {| dateNow := dateNow w + ms;
     authReplies := authReplies w;
     dataReplies := dataReplies w;
     trace := trace w ++ [e] |}.

(** [this.emitter.emit(name)] when nobody listens: the event is recorded.
    [Dynamic.emit] runs the listeners. *)
Definition emit (name : string) : Async unit :=
  fun m => (Fulfilled tt,
            {| this := this m; world := happened (Emit name) 0 (world m) |}).

(** [Math.floor(Date.now() / 1000)]; [Z.div] rounds towards minus infinity. *)
Definition getCurrentTimeSeconds : Async Z :=
  fun m => (Fulfilled (dateNow (world m) / 1000), m).

(** [await fetch(...)] in [_updateTokens]: the request goes out, the next
    reply of the authorization server comes back.  An exhausted script is a
    server that cannot be reached. *)
Definition fetchAuth (req : Request) : Async (Response QuestradeTokenRefreshResponse) :=
  fun m =>
    let w := world m in
    match authReplies w with
    | [] =>
        (Rejected (FetchError "no reply"),
         {| this := this m; world := happened (Fetch req) 0 w |})
    | Answered ms res :: rest =>
        (Fulfilled res,
         {| this := this m;
            world := {| dateNow := dateNow w + ms; authReplies := rest;
                        dataReplies := dataReplies w;
                        trace := trace w ++ [Fetch req] |} |})
    | Unreachable ms why :: rest =>
        (Rejected (FetchError why),
         {| this := this m;
            world := {| dateNow := dateNow w + ms; authReplies := rest;
                        dataReplies := dataReplies w;
                        trace := trace w ++ [Fetch req] |} |})
    end.

(** [await fetch(...)] in [_doApiRequest]. *)
Definition fetchData (req : Request) : Async (Response Json) :=
  fun m =>
    let w := world m in
    match dataReplies w with
    | [] =>
        (Rejected (FetchError "no reply"),
         {| this := this m; world := happened (Fetch req) 0 w |})
    | Answered ms res :: rest =>
        (Fulfilled res,
         {| this := this m;
            world := {| dateNow := dateNow w + ms; authReplies := authReplies w;
                        dataReplies := rest;
                        trace := trace w ++ [Fetch req] |} |})
    | Unreachable ms why :: rest =>
        (Rejected (FetchError why),
         {| this := this m;
            world := {| dateNow := dateNow w + ms; authReplies := authReplies w;
                        dataReplies := rest;
                        trace := trace w ++ [Fetch req] |} |})
    end.

(** [res.json()], read at the declared type: a body that parses but is not
    of that type has no place in this view; [Dynamic.res_json] hands on
    whatever was parsed. *)
Definition res_json {A : Type} (res : Response A) : Async A :=
  match json res with
  | Some v => ret v
  | None => throw (FetchError "invalid json response body")
  end.

(** [res.text()] *)
Definition res_text {A : Type} (res : Response A) : Async string :=
  ret (text res).

(* ================================================================= *)
(** ** String helpers of the methods *)

(** [s.replace(/\/$/, '')]: without the [m] flag [$] matches at the very end
    of the input only, so one final slash is dropped when there is one. *)
Fixpoint stripTrailingSlash (s : string) : string :=
  match s with
  | EmptyString => EmptyString
  | String c EmptyString => if Ascii.eqb c "/" then EmptyString else s
  | String c rest => String c (stripTrailingSlash rest)
  end.

(** [`${v}`] for an optional string: [undefined] prints as its name. *)
Definition interpolate (v : option string) : string :=
  match v with
  | Some s => s
  | None => "undefined"
  end.

(** [!v] for an optional string: [undefined] and [''] are the falsy ones. *)
Definition falsy (v : option string) : bool :=
  match v with
  | None => true
  | Some s => String.eqb s ""
  end.

(* ================================================================= *)
(** ** The methods *)

(** The default [method = 'GET'] is written out at the two call sites. *)
Definition _doApiRequest (endpoint : string) (method : string) : Async Json :=
  c <- self ;;
  let url := stripTrailingSlash (apiServer c) ++ endpoint in
  res <- fetchData {| url := url; method := method;
                      authorization := Some ("Bearer " ++ interpolate (accessToken c)) |} ;;
  if negb (ok res) then
    t <- res_text res ;;
    throw (ApiError (mkApiError ("Failed to " ++ method ++ " " ++ url) (status res) t))
  else
    res_json res.

Definition refreshRequest (c : QuestradeClient) : Request :=
  {| url := AUTH_URL ++ "?grant_type=refresh_token&refresh_token=" ++ refreshToken c;
     method := "POST";
     authorization := None |}.

Definition _updateTokens : Async unit :=
  c <- self ;;
  res <- fetchAuth (refreshRequest c) ;;
  if negb (ok res) then
    if status res =? CODE_BAD_REQUEST then
      throw (ApiError (mkApiError "Invalid refresh token" (status res) ""))
    else
      t <- res_text res ;;
      throw (ApiError (mkApiError "Failed to refresh tokens" (status res) t))
  else
    body <- res_json res ;;
    assign (set_accessToken (Some (access_token body))) ;;
    assign (set_refreshToken (refresh_token body)) ;;
    assign (set_apiServer (api_server body)) ;;
    now <- getCurrentTimeSeconds ;;
    assign (set_expirationTime (now + expires_in body)) ;;
    emit "refresh".

Definition _tokensNeedUpdating : Async bool :=
  c <- self ;;
  if falsy (accessToken c) then
    ret true
  else
    now <- getCurrentTimeSeconds ;;
    ret (now >=? expirationTime c - 20).

Definition getAccounts : Async Json :=
  stale <- _tokensNeedUpdating ;;
  (if stale : bool then _updateTokens else ret tt) ;;
  _doApiRequest "/v1/accounts" "GET".

Definition getAccountBalances (accountNumber : string) : Async Json :=
  stale <- _tokensNeedUpdating ;;
  (if stale : bool then _updateTokens else ret tt) ;;
  _doApiRequest ("/v1/accounts/" ++ accountNumber ++ "/balances") "GET".

Definition getRefreshToken : Async string :=
  c <- self ;; ret (refreshToken c).

Definition getAccessToken : Async (option string) :=
  c <- self ;; ret (accessToken c).

Definition getAccessTokenExpirationTime : Async Z :=
  c <- self ;; ret (expirationTime c).

(** The request [_doApiRequest] sends for a client and an endpoint. *)
Definition dataRequest (c : QuestradeClient) (endpoint method : string) : Request :=
  {| url := stripTrailingSlash (apiServer c) ++ endpoint;
     method := method;
     authorization := Some ("Bearer " ++ interpolate (accessToken c)) |}.

(** The client as a successful refresh leaves it: every field comes from the
    response body, the expiry from the clock (in seconds) at that moment. *)
Definition refreshed (b : QuestradeTokenRefreshResponse) (nowSeconds : Z) : QuestradeClient :=
  {| refreshToken := refresh_token b;
     accessToken := Some (access_token b);
     expirationTime := nowSeconds + expires_in b;
     apiServer := api_server b |}.

(** How often an event of the given name was emitted. *)
Fixpoint emitted (name : string) (tr : list Event) : nat :=
  match tr with
  | [] => 0%nat
  | Emit n :: rest => ((if String.eqb n name then 1 else 0) + emitted name rest)%nat
  | Fetch _ :: rest => emitted name rest
  end.

(** How many requests went to the token endpoint: the [POST]s, every data
    request of the public methods being a [GET]. *)
Fixpoint refreshCalls (tr : list Event) : nat :=
  match tr with
  | [] => 0%nat
  | Fetch req :: rest => ((if String.eqb (method req) "POST" then 1 else 0) + refreshCalls rest)%nat
  | Emit _ :: rest => refreshCalls rest
  end.

(** The freshness test as the specification words it: no token held, or
    within twenty seconds of the expiry. *)
Definition needsTokenRefresh_spec (c : QuestradeClient) (nowSeconds : Z) : bool :=
  match accessToken c with
  | None => true
  | Some _ => nowSeconds >=? expirationTime c - 20
  end.

(** What [_tokensNeedUpdating] answers in a given machine. *)
Definition stale (m : Machine) : bool :=
  if falsy (accessToken (this m)) then true
  else dateNow (world m) / 1000 >=? expirationTime (this m) - 20.

(* ================================================================= *)
(** ** Lifetimes of a client *)

(** The public methods of the class. *)
Inductive Call : Type :=
| CallGetAccounts
| CallGetAccountBalances (accountNumber : string)
| CallGetRefreshToken
| CallGetAccessToken
| CallGetAccessTokenExpirationTime.

(** The machine a call leaves behind, whatever it settled with. *)
Definition after (call : Call) (m : Machine) : Machine :=
  match call with
  | CallGetAccounts => snd (getAccounts m)
  | CallGetAccountBalances accountNumber => snd (getAccountBalances accountNumber m)
  | CallGetRefreshToken => snd (getRefreshToken m)
  | CallGetAccessToken => snd (getAccessToken m)
  | CallGetAccessTokenExpirationTime => snd (getAccessTokenExpirationTime m)
  end.

(** What a data method [run] for [endpoint] is to do from machine [m]:
    with a fresh token nothing but the data request; with a stale one the
    refresh first, once, and the data request only if the refresh was
    fulfilled, from the client the refresh left. *)
Definition refreshesThenRequests
    (run : Async Json) (endpoint : string) (m : Machine) : Prop :=
  let before := trace (world m) in
  let m' := snd (run m) in
  match fst (_tokensNeedUpdating m) with
  | Fulfilled false =>
      run m = _doApiRequest endpoint "GET" m /\
      trace (world m') =
        (before ++ [Fetch (dataRequest (this m) endpoint "GET")])%list /\
      refreshCalls (trace (world m')) = refreshCalls before
  | Fulfilled true =>
      match _updateTokens m with
      | (Fulfilled _, m1) =>
          run m = _doApiRequest endpoint "GET" m1 /\
          trace (world m') =
            (before ++ [Fetch (refreshRequest (this m)); Emit "refresh";
                        Fetch (dataRequest (this m1) endpoint "GET")])%list /\
          refreshCalls (trace (world m')) = S (refreshCalls before)
      | (Rejected e, m1) =>
          run m = (Rejected e, m1) /\
          trace (world m') =
            (before ++ [Fetch (refreshRequest (this m))])%list /\
          refreshCalls (trace (world m')) = S (refreshCalls before)
      end
  | Rejected _ => False
  end.

(* ================================================================= *)
(** ** The client as the JavaScript runs *)

(** Nothing checks a response body against the type the TypeScript gives
    it, so a field of the client can come to hold any value a JSON body can
    supply, or [undefined]; and [emit] runs the listeners of the emitter
    before it returns.  Numbers are the integers, as before. *)
Module Dynamic.

(** What [expirationTime] can hold: [-1] at first, then the result of
    [getCurrentTimeSeconds() + body.expires_in], which is a number, [NaN]
    or, when [expires_in] is not a number, a string. *)
Inductive Expiry : Type :=
| Seconds (t : Z)
| NotANumber
| Text (s : string).

(** [None] is [undefined]. *)
Record QuestradeClient : Type := mkClient {
  refreshToken : option Json;
  accessToken : option Json;
  expirationTime : Expiry;
  apiServer : option Json
}.

(** The argument comes from the code that creates the client and is a
    string, as the signature says. *)
Definition constructor (refreshToken : string) : QuestradeClient :=
  {| refreshToken := Some (JString refreshToken);
     accessToken := None;
     expirationTime := Seconds (-1);
     apiServer := Some (JString DEFAULT_API_SERVER) |}.

Definition set_accessToken (v : option Json) (c : QuestradeClient) :=
  {| refreshToken := refreshToken c; accessToken := v;
     expirationTime := expirationTime c; apiServer := apiServer c |}.
Definition set_refreshToken (v : option Json) (c : QuestradeClient) :=
  {| refreshToken := v; accessToken := accessToken c;
     expirationTime := expirationTime c; apiServer := apiServer c |}.
Definition set_apiServer (v : option Json) (c : QuestradeClient) :=
  {| refreshToken := refreshToken c; accessToken := accessToken c;
     expirationTime := expirationTime c; apiServer := v |}.
Definition set_expirationTime (v : Expiry) (c : QuestradeClient) :=
  {| refreshToken := refreshToken c; accessToken := accessToken c;
     expirationTime := v; apiServer := apiServer c |}.

(** An emitted event carries the client as it is at that moment: what a
    listener that calls the accessors sees. *)
Inductive Event : Type :=
| Fetch (req : Request)
| Emit (name : string) (seen : QuestradeClient).

(** A listener looks at the client and returns, or throws.  (One that calls
    a data method starts a task of its own; tasks that overlap are outside
    this model.) *)
Definition Listener : Type := QuestradeClient -> option Failure.

Record World : Type := mkWorld {
  dateNow : Z;
  authReplies : list (Reply Json);
  dataReplies : list (Reply Json);
  listeners : list Listener;
  trace : list Event
}.

Record Machine : Type := mkMachine {
  this : QuestradeClient;
  world : World
}.

Definition Async (A : Type) : Type := Machine -> Settled A * Machine.

Definition ret {A : Type} (a : A) : Async A := fun m => (Fulfilled a, m).

Definition throw {A : Type} (e : Failure) : Async A :=
  fun m => (Rejected e, m).

Definition bind {A B : Type} (p : Async A) (k : A -> Async B) : Async B :=
  fun m =>
    match p m with
    | (Fulfilled a, m') => k a m'
    | (Rejected e, m') => (Rejected e, m')
    end.

Declare Scope dynamic_scope.
Notation "x <- p ;; k" := (bind p (fun x => k))
  (at level 61, p at next level, right associativity) : dynamic_scope.
Notation "p ;; k" := (bind p (fun _ => k))
  (at level 61, right associativity) : dynamic_scope.
Local Open Scope dynamic_scope.

(** A step of the language that may end in a [TypeError]. *)
Definition orTypeError {A : Type} (where_ : string) (v : option A) : Async A :=
  match v with
  | Some a => ret a
  | None => throw (TypeError where_)
  end.

Definition self : Async QuestradeClient := fun m => (Fulfilled (this m), m).

Definition assign (f : QuestradeClient -> QuestradeClient) : Async unit :=
  fun m => (Fulfilled tt, {| this := f (this m); world := world m |}).

Definition getCurrentTimeSeconds : Async Z :=
  fun m => (Fulfilled (dateNow (world m) / 1000), m).

(** The listeners run in the order they were added; the first that throws
    ends the round. *)
Fixpoint notify (ls : list Listener) (c : QuestradeClient) : option Failure :=
  match ls with
  | [] => None
  | l :: rest =>
      match l c with
      | Some e => Some e
      | None => notify rest c
      end
  end.

(** [this.emitter.emit(name)]: the listeners are called on the spot, and
    what one of them throws comes out of [emit]. *)
Definition emit (name : string) : Async unit :=
  fun m =>
    let w := world m in
    let m' := {| this := this m;
                 world := {| dateNow := dateNow w;
                             authReplies := authReplies w;
                             dataReplies := dataReplies w;
                             listeners := listeners w;
                             trace := trace w ++ [Emit name (this m)] |} |} in
    match notify (listeners w) (this m) with
    | Some e => (Rejected e, m')
    | None => (Fulfilled tt, m')
    end.

Definition fetchAuth (req : Request) : Async (Response Json) :=
  fun m =>
    let w := world m in
    match authReplies w with
    | [] =>
        (Rejected (FetchError "no reply"),
         {| this := this m;
            world := {| dateNow := dateNow w; authReplies := [];
                        dataReplies := dataReplies w; listeners := listeners w;
                        trace := trace w ++ [Fetch req] |} |})
    | Answered ms res :: rest =>
        (Fulfilled res,
         {| this := this m;
            world := {| dateNow := dateNow w + ms; authReplies := rest;
                        dataReplies := dataReplies w; listeners := listeners w;
                        trace := trace w ++ [Fetch req] |} |})
    | Unreachable ms why :: rest =>
        (Rejected (FetchError why),
         {| this := this m;
            world := {| dateNow := dateNow w + ms; authReplies := rest;
                        dataReplies := dataReplies w; listeners := listeners w;
                        trace := trace w ++ [Fetch req] |} |})
    end.

Definition fetchData (req : Request) : Async (Response Json) :=
  fun m =>
    let w := world m in
    match dataReplies w with
    | [] =>
        (Rejected (FetchError "no reply"),
         {| this := this m;
            world := {| dateNow := dateNow w; authReplies := authReplies w;
                        dataReplies := []; listeners := listeners w;
                        trace := trace w ++ [Fetch req] |} |})
    | Answered ms res :: rest =>
        (Fulfilled res,
         {| this := this m;
            world := {| dateNow := dateNow w + ms; authReplies := authReplies w;
                        dataReplies := rest; listeners := listeners w;
                        trace := trace w ++ [Fetch req] |} |})
    | Unreachable ms why :: rest =>
        (Rejected (FetchError why),
         {| this := this m;
            world := {| dateNow := dateNow w + ms; authReplies := authReplies w;
                        dataReplies := rest; listeners := listeners w;
                        trace := trace w ++ [Fetch req] |} |})
    end.

(** [res.json()]: the body as [JSON.parse] gives it. *)
Definition res_json (res : Response Json) : Async Json :=
  match json res with
  | Some v => ret v
  | None => throw (FetchError "invalid json response body")
  end.

Definition res_text (res : Response Json) : Async string :=
  ret (text res).

(* ----------------------------------------------------------------- *)
(** *** What the language does with a value *)

(** A number in a string, for the integers the language prints in full. *)
Definition decimal (n : Z) : string := NilZero.string_of_int (Z.to_int n).

Definition hasOwn (name : string) (members : list (string * Json)) : bool :=
  existsb (fun member => String.eqb (fst member) name) members.

(** Of two members of the same name [JSON.parse] keeps the later. *)
Fixpoint lookupLast (name : string) (members : list (string * Json)) : option Json :=
  match members with
  | [] => None
  | (key, v) :: rest =>
      match lookupLast name rest with
      | Some later => Some later
      | None => if String.eqb key name then Some v else None
      end
  end.

(** The member [name] of a value: only an object has members, and of the
    four names the client reads no prototype supplies one. *)
Definition member (body : Json) (name : string) : option Json :=
  match body with
  | JObject members => lookupLast name members
  | _ => None
  end.

(** [body.name]: a [TypeError] on [null] (the outer [None]), the member or
    [undefined] on every other value. *)
Definition getProperty (body : Json) (name : string) : option (option Json) :=
  match body with
  | JNull => None
  | _ => Some (member body name)
  end.

(** The string of a parsed value, as a template literal and [+] make it.
    An array is its elements joined by commas, [null] among them counting
    as empty; an object is ["[object Object]"], unless it has a member
    [toString]: that member is not a function, [valueOf] gives the object
    back, and the conversion ends in a [TypeError] ([None]). *)
Fixpoint ToString (v : Json) : option string :=
  match v with
  | JNull => Some "null"
  | JBool b => Some (if b then "true" else "false")
  | JNumber n => Some (decimal n)
  | JString s => Some s
  | JArray items =>
      (fix join (items : list Json) : option string :=
         match items with
         | [] => Some ""
         | item :: rest =>
             match match item with
                   | JNull => Some ""
                   | _ => ToString item
                   end, rest with
             | Some first, [] => Some first
             | Some first, _ :: _ =>
                 match join rest with
                 | Some others => Some (first ++ "," ++ others)
                 | None => None
                 end
             | None, _ => None
             end
         end) items
  | JObject members =>
      if hasOwn "toString" members then None else Some "[object Object]"
  end.

(** [`${v}`] *)
Definition template (v : option Json) : option string :=
  match v with
  | None => Some "undefined"
  | Some j => ToString j
  end.

(** [!v] is true of [undefined], [null], [false], [0] and ['']. *)
Definition falsy (v : option Json) : bool :=
  match v with
  | None => true
  | Some JNull => true
  | Some (JBool b) => negb b
  | Some (JNumber n) => n =? 0
  | Some (JString s) => String.eqb s ""
  | Some (JArray _) => false
  | Some (JObject _) => false
  end.

(** [now + v] for a number [now]: a sum when [v] is a number, [null],
    [true] or [false]; [NaN] when it is [undefined]; the two strings put
    together when [v] is a string, an array or an object, and a [TypeError]
    ([None]) when that array or object has no string. *)
Definition plus (now : Z) (v : option Json) : option Expiry :=
  match v with
  | None => Some NotANumber
  | Some JNull => Some (Seconds now)
  | Some (JBool b) => Some (Seconds (now + (if b then 1 else 0)))
  | Some (JNumber n) => Some (Seconds (now + n))
  | Some (JString s) => Some (Text (decimal now ++ s))
  | Some (JArray items) =>
      option_map (fun s => Text (decimal now ++ s)) (ToString (JArray items))
  | Some (JObject members) =>
      option_map (fun s => Text (decimal now ++ s)) (ToString (JObject members))
  end.

(** [v.replace(/\/$/, '')]: only a string has the method. *)
Definition replaceTrailingSlash (v : option Json) : option string :=
  match v with
  | Some (JString s) => Some (stripTrailingSlash s)
  | _ => None
  end.

(* ----------------------------------------------------------------- *)
(** *** The methods *)

Definition _doApiRequest (endpoint : string) (method : string) : Async Json :=
  c <- self ;;
  base <- orTypeError "this.apiServer.replace" (replaceTrailingSlash (apiServer c)) ;;
  let url := base ++ endpoint in
  token <- orTypeError "`${this.accessToken}`" (template (accessToken c)) ;;
  res <- fetchData {| url := url; method := method;
                      authorization := Some ("Bearer " ++ token) |} ;;
  if negb (ok res) then
    t <- res_text res ;;
    throw (ApiError (mkApiError ("Failed to " ++ method ++ " " ++ url) (status res) t))
  else
    res_json res.

(** The token request for a refresh token already made a string. *)
Definition refreshRequest (token : string) : Request :=
  {| url := AUTH_URL ++ "?grant_type=refresh_token&refresh_token=" ++ token;
     method := "POST";
     authorization := None |}.

Definition _updateTokens : Async unit :=
  c <- self ;;
  token <- orTypeError "`${this.refreshToken}`" (template (refreshToken c)) ;;
  res <- fetchAuth (refreshRequest token) ;;
  if negb (ok res) then
    if status res =? CODE_BAD_REQUEST then
      throw (ApiError (mkApiError "Invalid refresh token" (status res) ""))
    else
      t <- res_text res ;;
      throw (ApiError (mkApiError "Failed to refresh tokens" (status res) t))
  else
    body <- res_json res ;;
    access_token <- orTypeError "body.access_token" (getProperty body "access_token") ;;
    assign (set_accessToken access_token) ;;
    refresh_token <- orTypeError "body.refresh_token" (getProperty body "refresh_token") ;;
    assign (set_refreshToken refresh_token) ;;
    api_server <- orTypeError "body.api_server" (getProperty body "api_server") ;;
    assign (set_apiServer api_server) ;;
    now <- getCurrentTimeSeconds ;;
    expires_in <- orTypeError "body.expires_in" (getProperty body "expires_in") ;;
    sum <- orTypeError "getCurrentTimeSeconds() + body.expires_in" (plus now expires_in) ;;
    assign (set_expirationTime sum) ;;
    emit "refresh".

Definition getRefreshToken : Async (option Json) :=
  c <- self ;; ret (refreshToken c).

Definition getAccessToken : Async (option Json) :=
  c <- self ;; ret (accessToken c).

Definition getAccessTokenExpirationTime : Async Expiry :=
  c <- self ;; ret (expirationTime c).

Inductive Call : Type :=
| CallGetAccounts
| CallGetAccountBalances (accountNumber : string)
| CallGetRefreshToken
| CallGetAccessToken
| CallGetAccessTokenExpirationTime.

(** The client after the four assignments: three members of the body and
    the sum. *)
Definition refreshedBy (body : Json) (sum : Expiry) : QuestradeClient :=
  {| refreshToken := member body "refresh_token";
     accessToken := member body "access_token";
     expirationTime := sum;
     apiServer := member body "api_server" |}.

(** The client after the first three assignments only. *)
Definition halfway (c : QuestradeClient) (body : Json) : QuestradeClient :=
  {| refreshToken := member body "refresh_token";
     accessToken := member body "access_token";
     expirationTime := expirationTime c;
     apiServer := member body "api_server" |}.

(** What a [QuestradeApiError] [e] that a data method for [endpoint] was
    rejected with can be, [m'] being the machine the call left: its code is
    no success status, and it is the error of a refused refresh token, of
    another failure of the refresh, or of the data request, and then its
    message names the URL of the last request the client sent, which is the
    server the client holds, less a final slash, and the endpoint. *)
Definition apiErrorOf (endpoint : string) (m' : Machine) (e : QuestradeApiError) : Prop :=
  ~ (200 <= code e < 300) /\
  ((message e = "Invalid refresh token" /\ code e = 400 /\ body e = "") \/
   (message e = "Failed to refresh tokens" /\ code e <> 400) \/
   (exists earlier base token,
      trace (world m') =
        (earlier ++ [Fetch {| url := (base ++ endpoint)%string; method := "GET";
                              authorization := Some ("Bearer " ++ token)%string |}])%list /\
      replaceTrailingSlash (apiServer (this m')) = Some base /\
      template (accessToken (this m')) = Some token /\
      message e = "Failed to GET " ++ base ++ endpoint)).

(** Whether the expression [now + body.expires_in] has a value for the
    [expires_in] of this body. *)
Definition summable (body : Json) : bool :=
  match getProperty body "expires_in" with
  | None => true
  | Some expires_in =>
      match plus 0 expires_in with
      | Some _ => true
      | None => false
      end
  end.

(** A reply of the token endpoint whose body, if it is a success with one,
    is summable. *)
Definition plain (reply : Reply Json) : bool :=
  match reply with
  | Answered _ res =>
      if ok res then
        match json res with
        | Some body => summable body
        | None => true
        end
      else true
  | Unreachable _ _ => true
  end.

(** The client the last ["refresh"] event showed, if there was one. *)
Fixpoint lastSeen (tr : list Event) : option QuestradeClient :=
  match tr with
  | [] => None
  | ev :: rest =>
      match lastSeen rest with
      | Some c => Some c
      | None =>
          match ev with
          | Emit _ c => Some c
          | Fetch _ => None
          end
      end
  end.

Fixpoint emitted (name : string) (tr : list Event) : nat :=
  match tr with
  | [] => 0%nat
  | Emit n _ :: rest => ((if String.eqb n name then 1 else 0) + emitted name rest)%nat
  | Fetch _ :: rest => emitted name rest
  end.

Section Freshness.

(** When [expirationTime] is a string, [now >= this.expirationTime - 20]
    turns on the number the language reads in that string, which need not
    be an integer and need not be a number at all.  What that test answers
    is left open: whatever it is, the statements below hold. *)
Variable reachedText : Z -> string -> bool.

(** [now >= expirationTime - 20]; no comparison with [NaN] holds. *)
Definition reached (now : Z) (expirationTime : Expiry) : bool :=
  match expirationTime with
  | Seconds t => now >=? t - 20
  | NotANumber => false
  | Text s => reachedText now s
  end.

Definition _tokensNeedUpdating : Async bool :=
  c <- self ;;
  if falsy (accessToken c) then
    ret true
  else
    now <- getCurrentTimeSeconds ;;
    ret (reached now (expirationTime c)).

(** What [_tokensNeedUpdating] answers in a given machine. *)
Definition stale (m : Machine) : bool :=
  if falsy (accessToken (this m)) then true
  else reached (dateNow (world m) / 1000) (expirationTime (this m)).

Definition getAccounts : Async Json :=
  stale <- _tokensNeedUpdating ;;
  (if stale : bool then _updateTokens else ret tt) ;;
  _doApiRequest "/v1/accounts" "GET".

Definition getAccountBalances (accountNumber : string) : Async Json :=
  stale <- _tokensNeedUpdating ;;
  (if stale : bool then _updateTokens else ret tt) ;;
  _doApiRequest ("/v1/accounts/" ++ accountNumber ++ "/balances") "GET".

Definition after (call : Call) (m : Machine) : Machine :=
  match call with
  | CallGetAccounts => snd (getAccounts m)
  | CallGetAccountBalances accountNumber => snd (getAccountBalances accountNumber m)
  | CallGetRefreshToken => snd (getRefreshToken m)
  | CallGetAccessToken => snd (getAccessToken m)
  | CallGetAccessTokenExpirationTime => snd (getAccessTokenExpirationTime m)
  end.

(** The states a client built from [refreshToken0] can be in when every
    body the token endpoint sends is summable: it is constructed in some
    world in which it has done nothing yet; then its methods are called,
    one after the other, and between two calls the world moves on as it
    likes (time passes, the servers change what they will answer, listeners
    come and go) but keeps the record of what the client did. *)
Inductive reachable (refreshToken0 : string) : Machine -> Prop :=
| reach_constructed now auth data ls :
    forallb plain auth = true ->
    reachable refreshToken0
      (mkMachine (constructor refreshToken0) (mkWorld now auth data ls []))
| reach_call m call :
    reachable refreshToken0 m ->
    reachable refreshToken0 (after call m)
| reach_world m now auth data ls :
    reachable refreshToken0 m ->
    forallb plain auth = true ->
    reachable refreshToken0
      (mkMachine (this m) (mkWorld now auth data ls (trace (world m)))).

End Freshness.

Close Scope dynamic_scope.

End Dynamic.

(* ================================================================= *)
(** ** From the typed client to the running one *)






(* ================================================================= *)
(** ** Running the methods *)

Ltac run_async :=
  cbv [getAccounts getAccountBalances getRefreshToken getAccessToken
       getAccessTokenExpirationTime _tokensNeedUpdating _updateTokens
       _doApiRequest bind ret throw self assign emit getCurrentTimeSeconds
       fetchAuth fetchData res_json res_text happened
       this world dateNow authReplies dataReplies trace].

Ltac run_dynamic :=
  cbv [Dynamic.getAccounts Dynamic.getAccountBalances Dynamic.getRefreshToken
       Dynamic.getAccessToken Dynamic.getAccessTokenExpirationTime
       Dynamic._tokensNeedUpdating Dynamic._updateTokens Dynamic._doApiRequest
       Dynamic.bind Dynamic.ret Dynamic.throw Dynamic.self Dynamic.assign
       Dynamic.emit Dynamic.getCurrentTimeSeconds Dynamic.fetchAuth
       Dynamic.fetchData Dynamic.res_json Dynamic.res_text Dynamic.orTypeError
       Dynamic.getProperty
       Dynamic.set_accessToken Dynamic.set_refreshToken Dynamic.set_apiServer
       Dynamic.set_expirationTime
       Dynamic.this Dynamic.world Dynamic.dateNow Dynamic.authReplies
       Dynamic.dataReplies Dynamic.listeners Dynamic.trace
       Dynamic.refreshToken Dynamic.accessToken Dynamic.expirationTime
       Dynamic.apiServer].

Lemma stripTrailingSlash_slash (s : string) :
  stripTrailingSlash (s ++ "/") = s.
Proof.
  induction s as [|c s IH]; [reflexivity|].
  destruct s as [|d s]; [reflexivity|].
  change (String c (String d s) ++ "/") with (String c (String d s ++ "/")).
  change (stripTrailingSlash (String c (String d s ++ "/")))
    with (String c (stripTrailingSlash (String d s ++ "/"))).
  rewrite IH. reflexivity.
Qed.

Lemma stripTrailingSlash_other (s : string) :
  (forall t, s <> t ++ "/") -> stripTrailingSlash s = s.
Proof.
  induction s as [|c s IH]; intros H; [reflexivity|].
  destruct s as [|d s].
  - cbn. destruct (Ascii.eqb_spec c "/") as [->|_]; [|reflexivity].
    exfalso. apply (H ""). reflexivity.
  - cbn [stripTrailingSlash]. f_equal. apply IH.
    intros t E. apply (H (String c t)). rewrite E. reflexivity.
Qed.

Lemma emitted_app (name : string) (tr tr' : list Event) :
  emitted name (tr ++ tr') = (emitted name tr + emitted name tr')%nat.
Proof.
  induction tr as [|[req|n] tr IH]; cbn; rewrite ?IH; lia.
Qed.

Lemma refreshCalls_app (tr tr' : list Event) :
  refreshCalls (tr ++ tr') = (refreshCalls tr + refreshCalls tr')%nat.
Proof.
  induction tr as [|[req|n] tr IH]; cbn; rewrite ?IH; lia.
Qed.

Lemma run_tokensNeedUpdating (m : Machine) :
  _tokensNeedUpdating m =
  (Fulfilled (stale m), m).
Proof.
  unfold stale. run_async. destruct (falsy _); reflexivity.
Qed.

Lemma run_updateTokens_ok c now ms res rest data tr b :
  ok res = true -> json res = Some b ->
  _updateTokens (mkMachine c (mkWorld now (Answered ms res :: rest) data tr)) =
  (Fulfilled tt,
   mkMachine (refreshed b ((now + ms) / 1000))
             (mkWorld (now + ms) rest data
                      (tr ++ [Fetch (refreshRequest c); Emit "refresh"]))).
Proof.
  intros Hok Hjson. run_async. rewrite Hok, Hjson. cbn [negb].
  rewrite Z.add_0_r, <- app_assoc. reflexivity.
Qed.

Lemma run_updateTokens_unparsable c now ms res rest data tr :
  ok res = true -> json res = None ->
  _updateTokens (mkMachine c (mkWorld now (Answered ms res :: rest) data tr)) =
  (Rejected (FetchError "invalid json response body"),
   mkMachine c (mkWorld (now + ms) rest data (tr ++ [Fetch (refreshRequest c)]))).
Proof.
  intros Hok Hjson. run_async. rewrite Hok, Hjson. reflexivity.
Qed.

Lemma run_updateTokens_failed c now ms res rest data tr :
  ok res = false ->
  _updateTokens (mkMachine c (mkWorld now (Answered ms res :: rest) data tr)) =
  (Rejected (ApiError (if status res =? CODE_BAD_REQUEST
                       then mkApiError "Invalid refresh token" (status res) ""
                       else mkApiError "Failed to refresh tokens" (status res) (text res))),
   mkMachine c (mkWorld (now + ms) rest data (tr ++ [Fetch (refreshRequest c)]))).
Proof.
  intros Hok. run_async. rewrite Hok. cbn [negb].
  destruct (status res =? CODE_BAD_REQUEST); reflexivity.
Qed.

Lemma run_updateTokens_unreachable c now ms why rest data tr :
  _updateTokens (mkMachine c (mkWorld now (Unreachable ms why :: rest) data tr)) =
  (Rejected (FetchError why),
   mkMachine c (mkWorld (now + ms) rest data (tr ++ [Fetch (refreshRequest c)]))).
Proof. reflexivity. Qed.

Lemma run_updateTokens_silent c now data tr :
  _updateTokens (mkMachine c (mkWorld now [] data tr)) =
  (Rejected (FetchError "no reply"),
   mkMachine c (mkWorld (now + 0) [] data (tr ++ [Fetch (refreshRequest c)]))).
Proof. reflexivity. Qed.

(** Whatever a refresh rejects with, the client is as it was and exactly the
    token request went out. *)
Lemma updateTokens_rejected m e m' :
  _updateTokens m = (Rejected e, m') ->
  this m' = this m /\
  trace (world m') = (trace (world m) ++ [Fetch (refreshRequest (this m))])%list.
Proof.
  destruct m as [c [now auth data tr]].
  destruct auth as [|[ms res|ms why] rest].
  - rewrite run_updateTokens_silent. intros [= _ <-]. split; reflexivity.
  - destruct (ok res) eqn:Hok.
    + destruct (json res) as [b|] eqn:Hjson.
      * rewrite (run_updateTokens_ok _ _ _ _ _ _ _ b Hok Hjson). discriminate.
      * rewrite (run_updateTokens_unparsable _ _ _ _ _ _ _ Hok Hjson).
        intros [= _ <-]. split; reflexivity.
    + rewrite (run_updateTokens_failed _ _ _ _ _ _ _ Hok).
      intros [= _ <-]. split; reflexivity.
  - rewrite run_updateTokens_unreachable. intros [= _ <-]. split; reflexivity.
Qed.

(** A refresh that is fulfilled has rewritten all four fields from one
    response body and emitted the event. *)
Lemma updateTokens_fulfilled m u m' :
  _updateTokens m = (Fulfilled u, m') ->
  exists ms res rest b,
    authReplies (world m) = Answered ms res :: rest /\
    ok res = true /\ json res = Some b /\
    this m' = refreshed b ((dateNow (world m) + ms) / 1000) /\
    world m' = mkWorld (dateNow (world m) + ms) rest (dataReplies (world m))
                 (trace (world m) ++ [Fetch (refreshRequest (this m)); Emit "refresh"]).
Proof.
  destruct m as [c [now auth data tr]].
  destruct auth as [|[ms res|ms why] rest].
  - rewrite run_updateTokens_silent. discriminate.
  - destruct (ok res) eqn:Hok.
    + destruct (json res) as [b|] eqn:Hjson.
      * rewrite (run_updateTokens_ok _ _ _ _ _ _ _ b Hok Hjson).
        intros [= _ <-]. exists ms, res, rest, b.
        cbn [authReplies world this dateNow dataReplies trace].
        split; [reflexivity|]. split; [exact Hok|]. split; [exact Hjson|].
        split; reflexivity.
      * rewrite (run_updateTokens_unparsable _ _ _ _ _ _ _ Hok Hjson). discriminate.
    + rewrite (run_updateTokens_failed _ _ _ _ _ _ _ Hok). discriminate.
  - rewrite run_updateTokens_unreachable. discriminate.
Qed.

Lemma run_doApiRequest_answered c now auth ms res rest tr endpoint method :
  _doApiRequest endpoint method
    (mkMachine c (mkWorld now auth (Answered ms res :: rest) tr)) =
  (if ok res then
     match json res with
     | Some j => Fulfilled j
     | None => Rejected (FetchError "invalid json response body")
     end
   else
     Rejected (ApiError (mkApiError
       ("Failed to " ++ method ++ " " ++ stripTrailingSlash (apiServer c) ++ endpoint)
       (status res) (text res))),
   mkMachine c (mkWorld (now + ms) auth rest
                        (tr ++ [Fetch (dataRequest c endpoint method)]))).
Proof.
  run_async. destruct (ok res); cbn [negb]; [|reflexivity].
  destruct (json res); reflexivity.
Qed.

(** A data request never touches the client and sends exactly one request,
    however it ends. *)
Lemma doApiRequest_footprint endpoint method m :
  this (snd (_doApiRequest endpoint method m)) = this m /\
  trace (world (snd (_doApiRequest endpoint method m))) =
    (trace (world m) ++ [Fetch (dataRequest (this m) endpoint method)])%list.
Proof.
  destruct m as [c [now auth data tr]].
  destruct data as [|[ms res|ms why] rest].
  - split; reflexivity.
  - rewrite run_doApiRequest_answered. split; reflexivity.
  - split; reflexivity.
Qed.

Lemma run_getAccounts m :
  getAccounts m =
  if stale m then
    match _updateTokens m with
    | (Fulfilled _, m1) => _doApiRequest "/v1/accounts" "GET" m1
    | (Rejected e, m1) => (Rejected e, m1)
    end
  else _doApiRequest "/v1/accounts" "GET" m.
Proof.
  unfold getAccounts, bind. rewrite run_tokensNeedUpdating. fold (stale m).
  destruct (stale m); [|reflexivity].
  destruct (_updateTokens m) as [[u|e] m1]; reflexivity.
Qed.

Lemma run_getAccountBalances accountNumber m :
  getAccountBalances accountNumber m =
  if stale m then
    match _updateTokens m with
    | (Fulfilled _, m1) =>
        _doApiRequest ("/v1/accounts/" ++ accountNumber ++ "/balances") "GET" m1
    | (Rejected e, m1) => (Rejected e, m1)
    end
  else _doApiRequest ("/v1/accounts/" ++ accountNumber ++ "/balances") "GET" m.
Proof.
  unfold getAccountBalances, bind. rewrite run_tokensNeedUpdating. fold (stale m).
  destruct (stale m); [|reflexivity].
  destruct (_updateTokens m) as [[u|e] m1]; reflexivity.
Qed.

(* ================================================================= *)
(** ** The refresh operation *)

(** C3: a refresh that the token endpoint answers with a status outside
    200..299 (400 included) is rejected and leaves the client exactly as it
    was: [accessToken], [expirationTime], [refreshToken] and [apiServer] hold
    their former values. *)
Theorem updateTokens_failure_keeps_state c now ms res rest data tr :
  ok res = false ->
  let m := mkMachine c (mkWorld now (Answered ms res :: rest) data tr) in
  let m' := snd (_updateTokens m) in
  (exists e, fst (_updateTokens m) = Rejected e) /\
  this m' = c /\
  accessToken (this m') = accessToken c /\
  expirationTime (this m') = expirationTime c /\
  refreshToken (this m') = refreshToken c /\
  apiServer (this m') = apiServer c.
Proof.
  intros Hok m m'. subst m m'.
  rewrite (run_updateTokens_failed c now ms res rest data tr Hok).
  cbn [fst snd this]. repeat split. eexists. reflexivity.
Qed.

Lemma updateTokens_failure_keeps_state_witness :
  let c := mkClient "R0" (Some "A0") 1700000000 "https://api05.iq.questrade.com/" in
  let res := mkResponse 400 "Bad Request" None in
  let m := mkMachine c (mkWorld 1700000500000 [Answered 90 res] [] []) in
  let m' := snd (_updateTokens m) in
  ok res = false /\
  (exists e, fst (_updateTokens m) = Rejected e) /\
  this m' = c /\
  accessToken (this m') = accessToken c /\
  expirationTime (this m') = expirationTime c /\
  refreshToken (this m') = refreshToken c /\
  apiServer (this m') = apiServer c.
Proof.
  split; [reflexivity|].
  exact (updateTokens_failure_keeps_state
           (mkClient "R0" (Some "A0") 1700000000 "https://api05.iq.questrade.com/")
           1700000500000 90 (mkResponse 400 "Bad Request" None) [] [] [] eq_refl).
Defined.

(** C4: a refresh that receives a status outside 200..299 is rejected with a
    [QuestradeApiError]; for status 400 its message is "Invalid refresh
    token", for every other such status the message is the generic "Failed
    to refresh tokens" and the error carries the response body. *)
Theorem updateTokens_failure_error c now ms res rest data tr :
  ok res = false ->
  let m := mkMachine c (mkWorld now (Answered ms res :: rest) data tr) in
  (status res = 400 ->
   fst (_updateTokens m) =
     Rejected (ApiError {| message := "Invalid refresh token";
                           code := 400; body := "" |})) /\
  (status res <> 400 ->
   fst (_updateTokens m) =
     Rejected (ApiError {| message := "Failed to refresh tokens";
                           code := status res; body := text res |})).
Proof.
  intros Hok m. subst m.
  rewrite (run_updateTokens_failed c now ms res rest data tr Hok).
  cbn [fst]. unfold CODE_BAD_REQUEST. split; intros Hs.
  - rewrite Hs. reflexivity.
  - destruct (Z.eqb_spec (status res) 400) as [E|_]; [contradiction|reflexivity].
Qed.

Lemma updateTokens_failure_error_witness :
  let c := constructor "R0" in
  let res := mkResponse 503 "maintenance" None in
  let m := mkMachine c (mkWorld 1700000500000 [Answered 90 res] [] []) in
  ok res = false /\
  (status res = 400 ->
   fst (_updateTokens m) =
     Rejected (ApiError {| message := "Invalid refresh token";
                           code := 400; body := "" |})) /\
  (status res <> 400 ->
   fst (_updateTokens m) =
     Rejected (ApiError {| message := "Failed to refresh tokens";
                           code := status res; body := text res |})).
Proof.
  split; [reflexivity|].
  exact (updateTokens_failure_error (constructor "R0") 1700000500000 90
           (mkResponse 503 "maintenance" None) [] [] [] eq_refl).
Defined.

(** C8, as the specification states it, fails: on status 400 the error's
    [body] is the empty string, not the text of the response. *)
Lemma updateTokens_bad_request_drops_body :
  let res := mkResponse 400 "invalid_grant" None in
  let m := mkMachine (constructor "R0") (mkWorld 1700000500000 [Answered 90 res] [] []) in
  ok res = false /\
  exists e,
    fst (_updateTokens m) = Rejected (ApiError e) /\
    text res = "invalid_grant" /\
    body e = "" /\
    body e <> text res.
Proof.
  split; [reflexivity|].
  exists (mkApiError "Invalid refresh token" 400 "").
  repeat split. discriminate.
Qed.

(** C8, amended: a refresh that receives a status outside 200..299 is
    rejected with a [QuestradeApiError] whose [code] is that status; its
    [body] is the text of the response verbatim when the status is not 400,
    and the empty string when it is 400. *)
Theorem updateTokens_failure_body c now ms res rest data tr :
  ok res = false ->
  let m := mkMachine c (mkWorld now (Answered ms res :: rest) data tr) in
  exists e,
    fst (_updateTokens m) = Rejected (ApiError e) /\
    code e = status res /\
    (status res <> 400 -> body e = text res) /\
    (status res = 400 -> body e = "").
Proof.
  intros Hok m. subst m.
  rewrite (run_updateTokens_failed c now ms res rest data tr Hok).
  cbn [fst]. unfold CODE_BAD_REQUEST.
  destruct (Z.eqb_spec (status res) 400) as [E|N]; eexists;
    (split; [reflexivity|]); cbn [code body];
    (split; [reflexivity|]); split; intros H; congruence.
Qed.

Lemma updateTokens_failure_body_witness :
  let res := mkResponse 500 "server error" None in
  let m := mkMachine (constructor "R0") (mkWorld 1700000500000 [Answered 90 res] [] []) in
  ok res = false /\
  exists e,
    fst (_updateTokens m) = Rejected (ApiError e) /\
    code e = status res /\
    (status res <> 400 -> body e = text res) /\
    (status res = 400 -> body e = "").
Proof.
  split; [reflexivity|].
  exact (updateTokens_failure_body (constructor "R0") 1700000500000 90
           (mkResponse 500 "server error" None) [] [] [] eq_refl).
Defined.

(* ================================================================= *)
(** ** The freshness test *)

(** C2, as the specification states it, fails: a client that holds the
    empty string as its access token (it is not [undefined]) and whose
    expiry is more than twenty seconds away is still told to refresh, so
    the answer is not "true iff now >= expirationTime - 20" there. *)
Lemma tokensNeedUpdating_empty_token_not_spec :
  let c := mkClient "R1" (Some "") 2000 DEFAULT_API_SERVER in
  let m := mkMachine c (mkWorld 1000000 [] [] []) in
  accessToken c <> None /\
  fst (_tokensNeedUpdating m) = Fulfilled true /\
  (dateNow (world m) / 1000 >=? expirationTime c - 20) = false /\
  fst (_tokensNeedUpdating m) <>
    Fulfilled (needsTokenRefresh_spec c (dateNow (world m) / 1000)).
Proof.
  split; [discriminate|]. split; [reflexivity|]. split; [reflexivity|].
  discriminate.
Qed.

(** C2, amended: [_tokensNeedUpdating] always answers, and changes neither
    the client nor the world.  It answers true when [accessToken] is
    [undefined] or the empty string; for a client that holds a non-empty
    access token and has [expirationTime = T] it answers true iff the
    current time in seconds is at least [T - 20].  Away from the empty
    string this is the test of the specification. *)
Theorem tokensNeedUpdating_answer m :
  exists b,
    _tokensNeedUpdating m = (Fulfilled b, m) /\
    (accessToken (this m) = None -> b = true) /\
    (accessToken (this m) = Some "" -> b = true) /\
    (forall t T, accessToken (this m) = Some t -> t <> "" ->
                 expirationTime (this m) = T ->
                 (b = true <-> dateNow (world m) / 1000 >= T - 20)) /\
    (accessToken (this m) <> Some "" ->
     b = needsTokenRefresh_spec (this m) (dateNow (world m) / 1000)).
Proof.
  exists (stale m). split; [apply run_tokensNeedUpdating|].
  unfold stale, needsTokenRefresh_spec, falsy.
  destruct (accessToken (this m)) as [t|].
  - split; [discriminate|]. split; [intros [= ->]; reflexivity|]. split.
    + intros t' T [= <-] Ht <-.
      destruct (String.eqb_spec t "") as [E|_]; [contradiction|].
      rewrite Z.geb_leb, Z.leb_le. lia.
    + intros Ht. destruct (String.eqb_spec t "") as [E|_]; [|reflexivity].
      subst t. contradiction.
  - split; [reflexivity|]. split; [discriminate|]. split; [|reflexivity].
    intros t T [=].
Qed.

(** C10: with the empty string as access token [_tokensNeedUpdating]
    answers true whatever the expiry and the time are, as it does when there
    is no access token; a refresh response with [access_token] [""] puts the
    client in that state; and [getAccounts] and [getAccountBalances] then
    settle with the same result and leave the same world as they do for a
    client without an access token. *)
Theorem tokensNeedUpdating_empty_token rt T srv w :
  let m := mkMachine (mkClient rt (Some "") T srv) w in
  let m0 := mkMachine (mkClient rt None T srv) w in
  _tokensNeedUpdating m = (Fulfilled true, m) /\
  fst (_tokensNeedUpdating m) = fst (_tokensNeedUpdating m0) /\
  (forall c now ms txt r s e rest data tr,
     let res := mkResponse 200 txt (Some (mkTokens "" r s e)) in
     let m1 := snd (_updateTokens
                      (mkMachine c (mkWorld now (Answered ms res :: rest) data tr))) in
     fst (getAccessToken m1) = Fulfilled (Some "") /\
     _tokensNeedUpdating m1 = (Fulfilled true, m1)) /\
  fst (getAccounts m) = fst (getAccounts m0) /\
  world (snd (getAccounts m)) = world (snd (getAccounts m0)) /\
  (forall accountNumber,
     fst (getAccountBalances accountNumber m) =
       fst (getAccountBalances accountNumber m0) /\
     world (snd (getAccountBalances accountNumber m)) =
       world (snd (getAccountBalances accountNumber m0))).
Proof.
  intros m m0.
  assert (Hrun : forall endpoint,
             fst (match _updateTokens m with
                  | (Fulfilled _, m1) => _doApiRequest endpoint "GET" m1
                  | (Rejected e, m1) => (Rejected e, m1)
                  end) =
             fst (match _updateTokens m0 with
                  | (Fulfilled _, m1) => _doApiRequest endpoint "GET" m1
                  | (Rejected e, m1) => (Rejected e, m1)
                  end) /\
             world (snd (match _updateTokens m with
                  | (Fulfilled _, m1) => _doApiRequest endpoint "GET" m1
                  | (Rejected e, m1) => (Rejected e, m1)
                  end)) =
             world (snd (match _updateTokens m0 with
                  | (Fulfilled _, m1) => _doApiRequest endpoint "GET" m1
                  | (Rejected e, m1) => (Rejected e, m1)
                  end))).
  { intros endpoint. subst m m0. destruct w as [now auth data tr].
    destruct auth as [|[ms res|ms why] rest].
    - rewrite !run_updateTokens_silent. split; reflexivity.
    - destruct (ok res) eqn:Hok.
      + destruct (json res) as [b|] eqn:Hjson.
        * rewrite !(run_updateTokens_ok _ _ _ _ _ _ _ b Hok Hjson).
          split; reflexivity.
        * rewrite !(run_updateTokens_unparsable _ _ _ _ _ _ _ Hok Hjson).
          split; reflexivity.
      + rewrite !(run_updateTokens_failed _ _ _ _ _ _ _ Hok). split; reflexivity.
    - rewrite !run_updateTokens_unreachable. split; reflexivity. }
  split; [reflexivity|]. split; [reflexivity|]. split.
  { intros c now ms txt r s e rest data tr res m1. subst res m1.
    rewrite (run_updateTokens_ok c now ms
               (mkResponse 200 txt (Some (mkTokens "" r s e))) rest data tr
               (mkTokens "" r s e) eq_refl eq_refl).
    split; reflexivity. }
  rewrite !run_getAccounts.
  change (stale m) with true. change (stale m0) with true.
  split; [apply Hrun|]. split; [apply Hrun|].
  intros accountNumber. rewrite !run_getAccountBalances.
  change (stale m) with true. change (stale m0) with true.
  apply Hrun.
Qed.

(* ================================================================= *)
(** ** Data requests *)

(** C6: a data request that is answered with a status outside 200..299 is
    rejected with a [QuestradeApiError] whose message is "Failed to", the
    method and the URL that was tried, whose [code] is the status and whose
    [body] is the text of the response; answered with a success status it
    returns the parsed body.  A 500 with body "server error" gives code 500
    and body "server error". *)
Theorem doApiRequest_outcome c now auth ms res rest tr endpoint method :
  let m := mkMachine c (mkWorld now auth (Answered ms res :: rest) tr) in
  let url := stripTrailingSlash (apiServer c) ++ endpoint in
  fst (_doApiRequest endpoint method m) =
    (if ok res then
       match json res with
       | Some j => Fulfilled j
       | None => Rejected (FetchError "invalid json response body")
       end
     else
       Rejected (ApiError {| message := "Failed to " ++ method ++ " " ++ url;
                             code := status res;
                             body := text res |})) /\
  (forall parsed,
     fst (_doApiRequest endpoint method
            (mkMachine c (mkWorld now auth
               (Answered ms (mkResponse 500 "server error" parsed) :: rest) tr))) =
     Rejected (ApiError {| message := "Failed to " ++ method ++ " " ++ url;
                           code := 500;
                           body := "server error" |})).
Proof.
  intros m url. subst m url. split.
  - rewrite run_doApiRequest_answered. reflexivity.
  - intros parsed. rewrite run_doApiRequest_answered. reflexivity.
Qed.

(** C7: whatever [apiServer] and the endpoint are, [_doApiRequest] sends one
    request, with the method it was given, to the URL that is [apiServer]
    without its final slash (when it has one) followed by the endpoint, and
    with the access token in the header [Authorization: Bearer].  A client
    built with "R0" whose refresh is answered with [access_token] "A1",
    [refresh_token] "R1", [api_server] "https://srv1/" and [expires_in] 1800
    sends [getAccounts]'s request to "https://srv1/v1/accounts" with
    [Authorization: Bearer A1], and [getRefreshToken] returns "R1" after. *)
Theorem doApiRequest_target :
  (forall c now auth data tr endpoint verb,
     let m := mkMachine c (mkWorld now auth data tr) in
     exists req,
       trace (world (snd (_doApiRequest endpoint verb m))) = (tr ++ [Fetch req])%list /\
       method req = verb /\
       (forall base, apiServer c = base ++ "/" -> url req = base ++ endpoint) /\
       ((forall base, apiServer c <> base ++ "/") -> url req = apiServer c ++ endpoint) /\
       (forall token, accessToken c = Some token ->
                      authorization req = Some ("Bearer " ++ token))) /\
  (forall now ms txt rest data,
     let tokens := mkTokens "A1" "R1" "https://srv1/" 1800 in
     let m := mkMachine (constructor "R0")
                (mkWorld now (Answered ms (mkResponse 200 txt (Some tokens)) :: rest)
                         data []) in
     let m' := snd (getAccounts m) in
     trace (world m') =
       [Fetch {| url := "https://login.questrade.com/oauth2/token?grant_type=refresh_token&refresh_token=R0";
                 method := "POST"; authorization := None |};
        Emit "refresh";
        Fetch {| url := "https://srv1/v1/accounts";
                 method := "GET"; authorization := Some "Bearer A1" |}] /\
     getRefreshToken m' = (Fulfilled "R1", m')).
Proof.
  split.
  - intros c now auth data tr endpoint verb m. subst m.
    exists (dataRequest c endpoint verb).
    split; [apply (doApiRequest_footprint endpoint verb
                     (mkMachine c (mkWorld now auth data tr)))|].
    split; [reflexivity|]. cbn [url authorization dataRequest].
    split; [|split].
    + intros base ->. rewrite stripTrailingSlash_slash. reflexivity.
    + intros H. rewrite (stripTrailingSlash_other _ H). reflexivity.
    + intros token ->. reflexivity.
  - intros now ms txt rest data tokens m m'. subst m'.
    rewrite run_getAccounts. change (stale m) with true. subst m tokens.
    rewrite (run_updateTokens_ok (constructor "R0") now ms
               (mkResponse 200 txt (Some (mkTokens "A1" "R1" "https://srv1/" 1800)))
               rest data [] (mkTokens "A1" "R1" "https://srv1/" 1800)
               eq_refl eq_refl).
    match goal with
    | |- context [_doApiRequest ?e ?mt ?m1] =>
        destruct (doApiRequest_footprint e mt m1) as [Hthis Htrace]
    end.
    split.
    + rewrite Htrace. reflexivity.
    + unfold getRefreshToken, bind, self, ret. rewrite Hthis. reflexivity.
Qed.

(* ================================================================= *)
(** ** The public data methods *)

Lemma refreshCalls_data c endpoint tr :
  refreshCalls (tr ++ [Fetch (dataRequest c endpoint "GET")]) = refreshCalls tr.
Proof. rewrite refreshCalls_app. cbn. lia. Qed.

Lemma refreshCalls_refresh c tr :
  refreshCalls (tr ++ [Fetch (refreshRequest c)]) = S (refreshCalls tr).
Proof. rewrite refreshCalls_app. cbn. lia. Qed.

Lemma refreshesThenRequests_pattern (run : Async Json) endpoint :
  (forall m,
     run m =
     if stale m then
       match _updateTokens m with
       | (Fulfilled _, m1) => _doApiRequest endpoint "GET" m1
       | (Rejected e, m1) => (Rejected e, m1)
       end
     else _doApiRequest endpoint "GET" m) ->
  forall m, refreshesThenRequests run endpoint m.
Proof.
  intros Hrun m. unfold refreshesThenRequests.
  rewrite run_tokensNeedUpdating, (Hrun m). cbn [fst].
  destruct (stale m).
  - destruct (_updateTokens m) as [[u|e] m1] eqn:Hupd.
    + destruct (updateTokens_fulfilled m u m1 Hupd)
        as (ms & res & rest & b & _ & _ & _ & _ & Hworld).
      destruct (doApiRequest_footprint endpoint "GET" m1) as [_ Htrace].
      split; [reflexivity|].
      rewrite Htrace, Hworld. cbn [trace].
      rewrite <- app_assoc. cbn [app]. split; [reflexivity|].
      change [Fetch (refreshRequest (this m)); Emit "refresh";
              Fetch (dataRequest (this m1) endpoint "GET")]
        with ([Fetch (refreshRequest (this m))] ++
              [Emit "refresh"; Fetch (dataRequest (this m1) endpoint "GET")])%list.
      rewrite app_assoc, refreshCalls_app, refreshCalls_refresh. cbn. lia.
    + destruct (updateTokens_rejected m e m1 Hupd) as [_ Htrace].
      split; [reflexivity|]. cbn [snd]. rewrite Htrace.
      split; [reflexivity|]. apply refreshCalls_refresh.
  - destruct (doApiRequest_footprint endpoint "GET" m) as [_ Htrace].
    split; [reflexivity|]. rewrite Htrace.
    split; [reflexivity|]. apply refreshCalls_data.
Qed.


(* ================================================================= *)
(** ** The session state over the life of a client *)


(* ================================================================= *)
(** ** Three runs *)

(** A new client whose refresh is refused with 400: the data method is
    rejected with "Invalid refresh token", only the token request went out,
    and there is still no access token. *)
Example getAccounts_invalid_refresh_token :
  let m := mkMachine (constructor "R0")
             (mkWorld 1700000000000
                [Answered 120 (mkResponse 400 "Bad Request" None)]
                [Answered 80 (mkResponse 200 "{}" (Some (JObject [])))] []) in
  fst (getAccounts m) =
    Rejected (ApiError (mkApiError "Invalid refresh token" 400 "")) /\
  trace (world (snd (getAccounts m))) = [Fetch (refreshRequest (constructor "R0"))] /\
  fst (getAccessToken (snd (getAccounts m))) = Fulfilled None /\
  fst (getRefreshToken (snd (getAccounts m))) = Fulfilled "R0".
Proof. repeat split. Qed.

(** A client whose token is good for another half hour: no refresh, one
    [GET] of the balances. *)
Example getAccountBalances_fresh_token :
  let c := mkClient "R1" (Some "A1") 1700001800 "https://srv1/" in
  let m := mkMachine c
             (mkWorld 1700000000000 []
                [Answered 80 (mkResponse 200 "{}" (Some (JObject [])))] []) in
  getAccountBalances "26598145" m =
    (Fulfilled (JObject []),
     mkMachine c
       (mkWorld 1700000000080 [] []
          [Fetch {| url := "https://srv1/v1/accounts/26598145/balances";
                    method := "GET";
                    authorization := Some "Bearer A1" |}])).
Proof. reflexivity. Qed.

(** The same client nineteen seconds before the expiry: one refresh, then
    the request with the new token at the new server. *)
Example getAccounts_stale_token :
  let c := mkClient "R1" (Some "A1") 1700001800 "https://srv1/" in
  let m := mkMachine c
             (mkWorld 1700001781000
                [Answered 500 (mkResponse 200 "{}"
                   (Some (mkTokens "A2" "R2" "https://srv2" 1800)))]
                [Answered 80 (mkResponse 503 "busy" None)] []) in
  getAccounts m =
    (Rejected (ApiError (mkApiError "Failed to GET https://srv2/v1/accounts" 503 "busy")),
     mkMachine (mkClient "R2" (Some "A2") 1700003581 "https://srv2")
       (mkWorld 1700001781580 [] []
          [Fetch {| url := "https://login.questrade.com/oauth2/token?grant_type=refresh_token&refresh_token=R1";
                    method := "POST"; authorization := None |};
           Emit "refresh";
           Fetch {| url := "https://srv2/v1/accounts";
                    method := "GET";
                    authorization := Some "Bearer A2" |}])).
Proof. reflexivity. Qed.

(* ================================================================= *)
(** ** Building the URL *)

Lemma append_slash_assoc (t : string) : t ++ "//" = (t ++ "/") ++ "/".
Proof. induction t as [|c t IH]; cbn; [reflexivity|]. rewrite IH. reflexivity. Qed.

Lemma final_slash_or_not (s : string) :
  (exists t, s = t ++ "/") \/ (forall t, s <> t ++ "/").
Proof.
  induction s as [|c s IH].
  - right. intros [|d t]; discriminate.
  - destruct IH as [[t ->] | Hno].
    + left. exists (String c t). reflexivity.
    + destruct s as [|d s].
      * destruct (Ascii.eqb_spec c "/") as [->|Hc].
        -- left. exists "". reflexivity.
        -- right. intros [|e t]; cbn.
           ++ intros [= E]. contradiction.
           ++ intros [= _ E]. destruct t; discriminate.
      * right. intros [|e t]; cbn; [discriminate|].
        intros [= _ E]. exact (Hno t E).
Qed.

(** X1: the base URL loses one final slash and nothing else.  A server that
    ends in a slash is cut back by exactly that one character, so one that
    ends in two slashes keeps one; any other server, the empty one included,
    is used as it stands. *)
Theorem stripTrailingSlash_one_final_slash (s : string) :
  ((exists t, s = t ++ "/" /\ stripTrailingSlash s = t) \/
   ((forall t, s <> t ++ "/") /\ stripTrailingSlash s = s)) /\
  stripTrailingSlash (s ++ "//") = s ++ "/" /\
  (forall c endpoint,
     apiServer c = s ++ "//" ->
     url (dataRequest c endpoint "GET") = s ++ "/" ++ endpoint).
Proof.
  split; [|split].
  - destruct (final_slash_or_not s) as [[t ->] | Hno].
    + left. exists t. split; [reflexivity|apply stripTrailingSlash_slash].
    + right. split; [exact Hno|apply stripTrailingSlash_other; exact Hno].
  - rewrite append_slash_assoc. apply stripTrailingSlash_slash.
  - intros c endpoint Hsrv. cbn [url dataRequest]. rewrite Hsrv.
    rewrite append_slash_assoc, stripTrailingSlash_slash.
    clear. induction s as [|d s IH]; cbn; [reflexivity|].
    cbn in IH. rewrite IH. reflexivity.
Qed.

(* ================================================================= *)
(** ** When a token counts as fresh *)

Lemma seconds_reached (ms T : Z) : ms / 1000 >= T <-> 1000 * T <= ms.
Proof.
  split; intros H.
  - assert (Hm := Z.mul_div_le ms 1000 ltac:(lia)). nia.
  - apply Z.le_ge, Z.div_le_lower_bound; lia.
Qed.

Lemma stale_with_token c w t :
  accessToken c = Some t -> t <> "" ->
  stale (mkMachine c w) = (dateNow w / 1000 >=? expirationTime c - 20).
Proof.
  intros Ht Hne. unfold stale, falsy. cbn [this world]. rewrite Ht.
  destruct (String.eqb_spec t "") as [E|_]; [contradiction|reflexivity].
Qed.

(** X2: for a client that holds a non-empty access token, the token counts
    as fresh exactly while [Date.now()], in milliseconds, is below
    [1000 * (expirationTime - 20)]: the flooring of the clock to seconds
    moves the boundary to a whole second, never past it. *)
Theorem tokensNeedUpdating_boundary_ms c w t :
  accessToken c = Some t ->
  t <> "" ->
  (fst (_tokensNeedUpdating (mkMachine c w)) = Fulfilled false <->
   dateNow w < 1000 * (expirationTime c - 20)) /\
  (fst (_tokensNeedUpdating (mkMachine c w)) = Fulfilled true <->
   1000 * (expirationTime c - 20) <= dateNow w).
Proof.
  intros Ht Hne. rewrite run_tokensNeedUpdating. cbn [fst].
  rewrite (stale_with_token c w t Ht Hne).
  pose proof (seconds_reached (dateNow w) (expirationTime c - 20)) as Hs.
  destruct (dateNow w / 1000 >=? expirationTime c - 20) eqn:E.
  - rewrite Z.geb_leb, Z.leb_le in E.
    split; split; intros H; try discriminate; try reflexivity; lia.
  - rewrite Z.geb_leb, Z.leb_gt in E.
    split; split; intros H; try discriminate; try reflexivity; lia.
Qed.

Lemma tokensNeedUpdating_boundary_ms_witness :
  let c := mkClient "R1" (Some "A1") 1700001800 "https://srv1/" in
  let w := mkWorld 1700001779999 [] [] [] in
  accessToken c = Some "A1" /\
  "A1" <> "" /\
  (fst (_tokensNeedUpdating (mkMachine c w)) = Fulfilled false <->
   dateNow w < 1000 * (expirationTime c - 20)) /\
  (fst (_tokensNeedUpdating (mkMachine c w)) = Fulfilled true <->
   1000 * (expirationTime c - 20) <= dateNow w).
Proof.
  split; [reflexivity|]. split; [discriminate|].
  exact (tokensNeedUpdating_boundary_ms
           (mkClient "R1" (Some "A1") 1700001800 "https://srv1/")
           (mkWorld 1700001779999 [] [] []) "A1" eq_refl ltac:(discriminate)).
Defined.

(** X3: staleness only grows with time.  For one and the same client, if
    [_tokensNeedUpdating] answers true at some reading of the clock it
    answers true at every later one; only a refresh makes a token fresh
    again. *)
Theorem tokensNeedUpdating_monotone c w w' :
  dateNow w <= dateNow w' ->
  fst (_tokensNeedUpdating (mkMachine c w)) = Fulfilled true ->
  fst (_tokensNeedUpdating (mkMachine c w')) = Fulfilled true.
Proof.
  intros Hle. rewrite !run_tokensNeedUpdating. cbn [fst].
  unfold stale. cbn [this world].
  destruct (falsy (accessToken c)); [trivial|].
  intros [= H]. f_equal.
  rewrite Z.geb_leb, Z.leb_le in *.
  pose proof (Z.div_le_mono (dateNow w) (dateNow w') 1000 ltac:(lia) Hle). lia.
Qed.

Lemma tokensNeedUpdating_monotone_witness :
  let c := mkClient "R1" (Some "A1") 1700001800 "https://srv1/" in
  let w := mkWorld 1700001780000 [] [] [] in
  let w' := mkWorld 1700009999999 [] [] [] in
  dateNow w <= dateNow w' /\
  fst (_tokensNeedUpdating (mkMachine c w)) = Fulfilled true /\
  fst (_tokensNeedUpdating (mkMachine c w')) = Fulfilled true.
Proof.
  split; [discriminate|]. split; [reflexivity|].
  exact (tokensNeedUpdating_monotone
           (mkClient "R1" (Some "A1") 1700001800 "https://srv1/")
           (mkWorld 1700001780000 [] [] []) (mkWorld 1700009999999 [] [] [])
           ltac:(discriminate) eq_refl).
Defined.

(* ================================================================= *)
(** ** Refreshing, whatever the network does *)



(* ================================================================= *)
(** ** One call after another *)

Lemma refreshCalls_of_call (run : Async Json) endpoint m :
  refreshesThenRequests run endpoint m ->
  refreshCalls (trace (world (snd (run m)))) =
    ((if stale m then 1 else 0) + refreshCalls (trace (world m)))%nat.
Proof.
  unfold refreshesThenRequests. rewrite run_tokensNeedUpdating. cbn [fst].
  destruct (stale m).
  - destruct (_updateTokens m) as [[u|e] m1]; intros (_ & _ & ->); reflexivity.
  - intros (_ & _ & ->). reflexivity.
Qed.

(** X6: a token is used for as long as it lives.  After a refresh that was
    fulfilled with a non-empty access token, a data method called at any
    reading of the clock below [1000 * (expirationTime - 20)] milliseconds,
    [expirationTime] being the arrival time in seconds plus [expires_in],
    goes straight to the data request: no further token request is sent. *)
Theorem no_refresh_while_token_lives c now ms res rest data tr b w' :
  ok res = true ->
  json res = Some b ->
  access_token b <> "" ->
  dateNow w' < 1000 * ((now + ms) / 1000 + expires_in b - 20) ->
  let m1 := snd (_updateTokens
                   (mkMachine c (mkWorld now (Answered ms res :: rest) data tr))) in
  let m2 := mkMachine (this m1) w' in
  getAccounts m2 = _doApiRequest "/v1/accounts" "GET" m2 /\
  refreshCalls (trace (world (snd (getAccounts m2)))) = refreshCalls (trace w') /\
  (forall accountNumber,
     getAccountBalances accountNumber m2 =
       _doApiRequest ("/v1/accounts/" ++ accountNumber ++ "/balances") "GET" m2 /\
     refreshCalls (trace (world (snd (getAccountBalances accountNumber m2)))) =
       refreshCalls (trace w')).
Proof.
  intros Hok Hjson Hne Hlt m1 m2. subst m2 m1.
  rewrite (run_updateTokens_ok c now ms res rest data tr b Hok Hjson).
  cbn [snd this].
  set (m2 := mkMachine (refreshed b ((now + ms) / 1000)) w').
  assert (Hfresh : stale m2 = false).
  { unfold m2.
    rewrite (stale_with_token (refreshed b ((now + ms) / 1000)) w'
               (access_token b) eq_refl Hne).
    cbn [expirationTime refreshed]. rewrite Z.geb_leb, Z.leb_gt.
    apply Z.div_lt_upper_bound; lia. }
  split; [rewrite run_getAccounts, Hfresh; reflexivity|]. split.
  - rewrite (refreshCalls_of_call getAccounts "/v1/accounts" m2
               (refreshesThenRequests_pattern _ _ run_getAccounts m2)), Hfresh.
    reflexivity.
  - intros accountNumber.
    split; [rewrite run_getAccountBalances, Hfresh; reflexivity|].
    rewrite (refreshCalls_of_call (getAccountBalances accountNumber) _ m2
               (refreshesThenRequests_pattern _ _
                  (run_getAccountBalances accountNumber) m2)), Hfresh.
    reflexivity.
Qed.

Lemma no_refresh_while_token_lives_witness :
  let c := constructor "R0" in
  let b := mkTokens "A1" "R1" "https://srv1/" 1800 in
  let res := mkResponse 200 "{}" (Some b) in
  let w' := mkWorld 1700001779999 []
              [Answered 80 (mkResponse 200 "{}" (Some (JObject [])))] [] in
  let m1 := snd (_updateTokens
                   (mkMachine c (mkWorld 1700000000000 [Answered 250 res] [] []))) in
  let m2 := mkMachine (this m1) w' in
  ok res = true /\
  json res = Some b /\
  access_token b <> "" /\
  dateNow w' < 1000 * ((1700000000000 + 250) / 1000 + expires_in b - 20) /\
  getAccounts m2 = _doApiRequest "/v1/accounts" "GET" m2 /\
  refreshCalls (trace (world (snd (getAccounts m2)))) = refreshCalls (trace w') /\
  (forall accountNumber,
     getAccountBalances accountNumber m2 =
       _doApiRequest ("/v1/accounts/" ++ accountNumber ++ "/balances") "GET" m2 /\
     refreshCalls (trace (world (snd (getAccountBalances accountNumber m2)))) =
       refreshCalls (trace w')).
Proof.
  split; [reflexivity|]. split; [reflexivity|]. split; [discriminate|].
  split; [reflexivity|].
  exact (no_refresh_while_token_lives (constructor "R0") 1700000000000 250
           (mkResponse 200 "{}" (Some (mkTokens "A1" "R1" "https://srv1/" 1800)))
           [] [] [] (mkTokens "A1" "R1" "https://srv1/" 1800)
           (mkWorld 1700001779999 []
              [Answered 80 (mkResponse 200 "{}" (Some (JObject [])))] [])
           eq_refl eq_refl ltac:(discriminate) eq_refl).
Defined.



(** X8: the new tokens are kept whatever becomes of the data request.  When
    a data method finds the token stale and the refresh is fulfilled with
    body [b], then however the data server answers, or fails to, the client
    holds the four values of the refresh and the ["refresh"] event has been
    emitted once; if the data server answers with a status outside 200..299
    the call is rejected with the error of the data request, at the new
    server, and the rotation has happened all the same. *)
Theorem rotation_survives_data_failure c now ms res rest data tr b :
  fst (_tokensNeedUpdating
         (mkMachine c (mkWorld now (Answered ms res :: rest) data tr))) =
    Fulfilled true ->
  ok res = true ->
  json res = Some b ->
  let m := mkMachine c (mkWorld now (Answered ms res :: rest) data tr) in
  let kept := {| refreshToken := refresh_token b;
                 accessToken := Some (access_token b);
                 expirationTime := (now + ms) / 1000 + expires_in b;
                 apiServer := api_server b |} in
  this (snd (getAccounts m)) = kept /\
  emitted "refresh" (trace (world (snd (getAccounts m)))) = S (emitted "refresh" tr) /\
  (forall accountNumber,
     this (snd (getAccountBalances accountNumber m)) = kept /\
     emitted "refresh" (trace (world (snd (getAccountBalances accountNumber m)))) =
       S (emitted "refresh" tr)) /\
  (forall dms dres drest,
     data = Answered dms dres :: drest ->
     ok dres = false ->
     fst (getAccounts m) =
       Rejected (ApiError
         {| message := "Failed to GET " ++ stripTrailingSlash (api_server b)
                                        ++ "/v1/accounts";
            code := status dres;
            body := text dres |})).
Proof.
  intros Hstale Hok Hjson m kept.
  rewrite run_tokensNeedUpdating in Hstale. cbn [fst] in Hstale.
  injection Hstale as Hstale. fold m in Hstale.
  assert (Hgen : forall endpoint,
            this (snd (_doApiRequest endpoint "GET" (snd (_updateTokens m)))) = kept /\
            emitted "refresh"
              (trace (world (snd (_doApiRequest endpoint "GET" (snd (_updateTokens m)))))) =
              S (emitted "refresh" tr)).
  { intros endpoint.
    destruct (doApiRequest_footprint endpoint "GET" (snd (_updateTokens m)))
      as [Hthis Htrace].
    rewrite Hthis, Htrace. unfold m.
    rewrite (run_updateTokens_ok c now ms res rest data tr b Hok Hjson).
    cbn [snd this world trace]. split; [reflexivity|].
    rewrite !emitted_app. cbn. lia. }
  assert (Hupd : _updateTokens m = (Fulfilled tt, snd (_updateTokens m))).
  { unfold m. rewrite (run_updateTokens_ok c now ms res rest data tr b Hok Hjson).
    reflexivity. }
  split; [|split; [|split]].
  - rewrite run_getAccounts, Hstale, Hupd. apply Hgen.
  - rewrite run_getAccounts, Hstale, Hupd. apply Hgen.
  - intros accountNumber. rewrite run_getAccountBalances, Hstale, Hupd. apply Hgen.
  - intros dms dres drest -> Hbad.
    rewrite run_getAccounts, Hstale. unfold m.
    rewrite (run_updateTokens_ok c now ms res rest _ tr b Hok Hjson).
    rewrite run_doApiRequest_answered, Hbad. reflexivity.
Qed.

Lemma rotation_survives_data_failure_witness :
  let c := mkClient "R1" (Some "A1") 1700001800 "https://srv1/" in
  let b := mkTokens "A2" "R2" "https://srv2" 1800 in
  let res := mkResponse 200 "{}" (Some b) in
  let data := [Answered 80 (mkResponse 503 "busy" (@None Json))] in
  let m := mkMachine c (mkWorld 1700001781000 [Answered 500 res] data []) in
  let kept := {| refreshToken := refresh_token b;
                 accessToken := Some (access_token b);
                 expirationTime := (1700001781000 + 500) / 1000 + expires_in b;
                 apiServer := api_server b |} in
  fst (_tokensNeedUpdating m) = Fulfilled true /\
  ok res = true /\
  json res = Some b /\
  this (snd (getAccounts m)) = kept /\
  emitted "refresh" (trace (world (snd (getAccounts m)))) = S (emitted "refresh" []) /\
  (forall accountNumber,
     this (snd (getAccountBalances accountNumber m)) = kept /\
     emitted "refresh" (trace (world (snd (getAccountBalances accountNumber m)))) =
       S (emitted "refresh" [])) /\
  (forall dms dres drest,
     data = Answered dms dres :: drest ->
     ok dres = false ->
     fst (getAccounts m) =
       Rejected (ApiError
         {| message := "Failed to GET " ++ stripTrailingSlash (api_server b)
                                        ++ "/v1/accounts";
            code := status dres;
            body := text dres |})).
Proof.
  split; [reflexivity|]. split; [reflexivity|]. split; [reflexivity|].
  exact (rotation_survives_data_failure
           (mkClient "R1" (Some "A1") 1700001800 "https://srv1/")
           1700001781000 500
           (mkResponse 200 "{}" (Some (mkTokens "A2" "R2" "https://srv2" 1800)))
           [] [Answered 80 (mkResponse 503 "busy" (@None Json))] []
           (mkTokens "A2" "R2" "https://srv2" 1800) eq_refl eq_refl eq_refl).
Defined.

(** X9: a fresh token is not given up on an error.  When
    [_tokensNeedUpdating] answers false, a data method leaves the client as
    it was, sends no token request and emits nothing, whatever the data
    server answers (a 401 included) or fails to answer. *)
Theorem fresh_call_keeps_client m :
  fst (_tokensNeedUpdating m) = Fulfilled false ->
  (this (snd (getAccounts m)) = this m /\
   refreshCalls (trace (world (snd (getAccounts m)))) = refreshCalls (trace (world m)) /\
   emitted "refresh" (trace (world (snd (getAccounts m)))) =
     emitted "refresh" (trace (world m))) /\
  (forall accountNumber,
     this (snd (getAccountBalances accountNumber m)) = this m /\
     refreshCalls (trace (world (snd (getAccountBalances accountNumber m)))) =
       refreshCalls (trace (world m)) /\
     emitted "refresh" (trace (world (snd (getAccountBalances accountNumber m)))) =
       emitted "refresh" (trace (world m))).
Proof.
  rewrite run_tokensNeedUpdating. cbn [fst]. intros [= Hfresh].
  assert (Hgen : forall endpoint,
            this (snd (_doApiRequest endpoint "GET" m)) = this m /\
            refreshCalls (trace (world (snd (_doApiRequest endpoint "GET" m)))) =
              refreshCalls (trace (world m)) /\
            emitted "refresh" (trace (world (snd (_doApiRequest endpoint "GET" m)))) =
              emitted "refresh" (trace (world m))).
  { intros endpoint.
    destruct (doApiRequest_footprint endpoint "GET" m) as [Hthis Htrace].
    rewrite Hthis, Htrace. split; [reflexivity|]. split.
    - apply refreshCalls_data.
    - rewrite emitted_app. cbn. lia. }
  split.
  - rewrite run_getAccounts, Hfresh. apply Hgen.
  - intros accountNumber. rewrite run_getAccountBalances, Hfresh. apply Hgen.
Qed.

Lemma fresh_call_keeps_client_witness :
  let c := mkClient "R1" (Some "A1") 1700001800 "https://srv1/" in
  let m := mkMachine c
             (mkWorld 1700000000000
                [Answered 90 (mkResponse 200 "{}"
                   (Some (mkTokens "A2" "R2" "https://srv2" 1800)))]
                [Answered 80 (mkResponse 401 "Unauthorized" None)] []) in
  fst (_tokensNeedUpdating m) = Fulfilled false /\
  (this (snd (getAccounts m)) = this m /\
   refreshCalls (trace (world (snd (getAccounts m)))) = refreshCalls (trace (world m)) /\
   emitted "refresh" (trace (world (snd (getAccounts m)))) =
     emitted "refresh" (trace (world m))) /\
  (forall accountNumber,
     this (snd (getAccountBalances accountNumber m)) = this m /\
     refreshCalls (trace (world (snd (getAccountBalances accountNumber m)))) =
       refreshCalls (trace (world m)) /\
     emitted "refresh" (trace (world (snd (getAccountBalances accountNumber m)))) =
       emitted "refresh" (trace (world m))).
Proof.
  split; [reflexivity|].
  exact (fresh_call_keeps_client
           (mkMachine (mkClient "R1" (Some "A1") 1700001800 "https://srv1/")
              (mkWorld 1700000000000
                 [Answered 90 (mkResponse 200 "{}"
                    (Some (mkTokens "A2" "R2" "https://srv2" 1800)))]
                 [Answered 80 (mkResponse 401 "Unauthorized" None)] []))
           eq_refl).
Defined.

(* ================================================================= *)
(** ** What a caller can be told *)

Lemma ok_false_status {A : Type} (res : Response A) :
  ok res = false -> ~ (200 <= status res < 300).
Proof.
  unfold ok. intros H [Hlo Hhi].
  apply Z.leb_le in Hlo. apply Z.ltb_lt in Hhi.
  rewrite Hlo, Hhi in H. discriminate.
Qed.


(* ================================================================= *)
(** ** Running the methods of the running client *)

Lemma dynamic_lastSeen_app (tr tr' : list Dynamic.Event) :
  Dynamic.lastSeen (tr ++ tr') =
  match Dynamic.lastSeen tr' with
  | Some c => Some c
  | None => Dynamic.lastSeen tr
  end.
Proof.
  induction tr as [|ev tr IH]; cbn.
  - destruct (Dynamic.lastSeen tr'); reflexivity.
  - rewrite IH. destruct (Dynamic.lastSeen tr'); reflexivity.
Qed.

Lemma dynamic_emitted_app (name : string) (tr tr' : list Dynamic.Event) :
  Dynamic.emitted name (tr ++ tr') =
  (Dynamic.emitted name tr + Dynamic.emitted name tr')%nat.
Proof.
  induction tr as [|[req|n c] tr IH]; cbn; rewrite ?IH; lia.
Qed.

(** [_updateTokens], case by case. *)
Lemma dynamic_run_updateTokens c now auth data ls tr :
  Dynamic._updateTokens
    (Dynamic.mkMachine c (Dynamic.mkWorld now auth data ls tr)) =
  match Dynamic.template (Dynamic.refreshToken c) with
  | None =>
      (Rejected (TypeError "`${this.refreshToken}`"),
       Dynamic.mkMachine c (Dynamic.mkWorld now auth data ls tr))
  | Some token =>
      let sent := (tr ++ [Dynamic.Fetch (Dynamic.refreshRequest token)])%list in
      match auth with
      | [] =>
          (Rejected (FetchError "no reply"),
           Dynamic.mkMachine c (Dynamic.mkWorld now [] data ls sent))
      | Unreachable ms why :: rest =>
          (Rejected (FetchError why),
           Dynamic.mkMachine c (Dynamic.mkWorld (now + ms) rest data ls sent))
      | Answered ms res :: rest =>
          if ok res then
            match json res with
            | None =>
                (Rejected (FetchError "invalid json response body"),
                 Dynamic.mkMachine c (Dynamic.mkWorld (now + ms) rest data ls sent))
            | Some JNull =>
                (Rejected (TypeError "body.access_token"),
                 Dynamic.mkMachine c (Dynamic.mkWorld (now + ms) rest data ls sent))
            | Some body =>
                match Dynamic.plus ((now + ms) / 1000)
                                   (Dynamic.member body "expires_in") with
                | None =>
                    (Rejected (TypeError "getCurrentTimeSeconds() + body.expires_in"),
                     Dynamic.mkMachine (Dynamic.halfway c body)
                       (Dynamic.mkWorld (now + ms) rest data ls sent))
                | Some sum =>
                    (match Dynamic.notify ls (Dynamic.refreshedBy body sum) with
                     | Some e => Rejected e
                     | None => Fulfilled tt
                     end,
                     Dynamic.mkMachine (Dynamic.refreshedBy body sum)
                       (Dynamic.mkWorld (now + ms) rest data ls
                          (sent ++ [Dynamic.Emit "refresh"
                                      (Dynamic.refreshedBy body sum)])))
                end
            end
          else
            (Rejected (ApiError
               (if status res =? CODE_BAD_REQUEST
                then mkApiError "Invalid refresh token" (status res) ""
                else mkApiError "Failed to refresh tokens" (status res) (text res))),
             Dynamic.mkMachine c (Dynamic.mkWorld (now + ms) rest data ls sent))
      end
  end.
Proof.
  run_dynamic.
  destruct (Dynamic.template _) as [token|]; [|reflexivity].
  destruct auth as [|[ms res|ms why] rest]; [reflexivity| |reflexivity].
  destruct (ok res); cbn [negb].
  - destruct (json res) as [body|]; [|reflexivity].
    destruct body; try reflexivity;
      (destruct (Dynamic.plus _ _) as [sum|]; [|reflexivity];
       unfold Dynamic.refreshedBy;
       destruct (Dynamic.notify ls _); reflexivity).
  - destruct (status res =? CODE_BAD_REQUEST); reflexivity.
Qed.

(** [_doApiRequest], case by case. *)
Lemma dynamic_run_doApiRequest c now auth data ls tr endpoint verb :
  Dynamic._doApiRequest endpoint verb
    (Dynamic.mkMachine c (Dynamic.mkWorld now auth data ls tr)) =
  match Dynamic.replaceTrailingSlash (Dynamic.apiServer c) with
  | None =>
      (Rejected (TypeError "this.apiServer.replace"),
       Dynamic.mkMachine c (Dynamic.mkWorld now auth data ls tr))
  | Some base =>
      match Dynamic.template (Dynamic.accessToken c) with
      | None =>
          (Rejected (TypeError "`${this.accessToken}`"),
           Dynamic.mkMachine c (Dynamic.mkWorld now auth data ls tr))
      | Some token =>
          let sent :=
            (tr ++ [Dynamic.Fetch
                      {| url := (base ++ endpoint)%string; method := verb;
                         authorization := Some ("Bearer " ++ token)%string |}])%list in
          match data with
          | [] =>
              (Rejected (FetchError "no reply"),
               Dynamic.mkMachine c (Dynamic.mkWorld now auth [] ls sent))
          | Unreachable ms why :: rest =>
              (Rejected (FetchError why),
               Dynamic.mkMachine c (Dynamic.mkWorld (now + ms) auth rest ls sent))
          | Answered ms res :: rest =>
              (if ok res then
                 match json res with
                 | Some j => Fulfilled j
                 | None => Rejected (FetchError "invalid json response body")
                 end
               else
                 Rejected (ApiError (mkApiError
                   ("Failed to " ++ verb ++ " " ++ base ++ endpoint)
                   (status res) (text res))),
               Dynamic.mkMachine c (Dynamic.mkWorld (now + ms) auth rest ls sent))
          end
      end
  end.
Proof.
  run_dynamic.
  destruct (Dynamic.replaceTrailingSlash _) as [base|]; [|reflexivity].
  destruct (Dynamic.template _) as [token|]; [|reflexivity].
  destruct data as [|[ms res|ms why] rest]; [reflexivity| |reflexivity].
  destruct (ok res); cbn [negb]; [|reflexivity].
  destruct (json res); reflexivity.
Qed.

(** A data request leaves the client, the token endpoint and the listeners
    alone and emits nothing. *)
Lemma dynamic_doApiRequest_footprint endpoint verb m :
  let m' := snd (Dynamic._doApiRequest endpoint verb m) in
  Dynamic.this m' = Dynamic.this m /\
  Dynamic.authReplies (Dynamic.world m') = Dynamic.authReplies (Dynamic.world m) /\
  Dynamic.lastSeen (Dynamic.trace (Dynamic.world m')) =
    Dynamic.lastSeen (Dynamic.trace (Dynamic.world m)) /\
  Dynamic.emitted "refresh" (Dynamic.trace (Dynamic.world m')) =
    Dynamic.emitted "refresh" (Dynamic.trace (Dynamic.world m)).
Proof.
  destruct m as [c [now auth data ls tr]]. cbv zeta.
  rewrite dynamic_run_doApiRequest.
  destruct (Dynamic.replaceTrailingSlash _) as [base|]; [|repeat split].
  destruct (Dynamic.template _) as [token|]; [|repeat split].
  cbv zeta.
  destruct data as [|[ms res|ms why] rest]; cbn [snd Dynamic.this Dynamic.world
    Dynamic.authReplies Dynamic.trace];
    rewrite dynamic_lastSeen_app, dynamic_emitted_app; cbn;
    (split; [reflexivity|]); (split; [reflexivity|]); (split; [reflexivity|lia]).
Qed.

Lemma dynamic_run_tokensNeedUpdating reachedText m :
  Dynamic._tokensNeedUpdating reachedText m =
  (Fulfilled (Dynamic.stale reachedText m), m).
Proof.
  unfold Dynamic.stale. run_dynamic.
  destruct (Dynamic.falsy _); reflexivity.
Qed.

Lemma dynamic_run_getAccounts reachedText m :
  Dynamic.getAccounts reachedText m =
  if Dynamic.stale reachedText m then
    match Dynamic._updateTokens m with
    | (Fulfilled _, m1) => Dynamic._doApiRequest "/v1/accounts" "GET" m1
    | (Rejected e, m1) => (Rejected e, m1)
    end
  else Dynamic._doApiRequest "/v1/accounts" "GET" m.
Proof.
  unfold Dynamic.getAccounts, Dynamic.bind.
  rewrite dynamic_run_tokensNeedUpdating.
  destruct (Dynamic.stale reachedText m); [|reflexivity].
  destruct (Dynamic._updateTokens m) as [[u|e] m1]; reflexivity.
Qed.

Lemma dynamic_run_getAccountBalances reachedText accountNumber m :
  Dynamic.getAccountBalances reachedText accountNumber m =
  if Dynamic.stale reachedText m then
    match Dynamic._updateTokens m with
    | (Fulfilled _, m1) =>
        Dynamic._doApiRequest ("/v1/accounts/" ++ accountNumber ++ "/balances") "GET" m1
    | (Rejected e, m1) => (Rejected e, m1)
    end
  else Dynamic._doApiRequest ("/v1/accounts/" ++ accountNumber ++ "/balances") "GET" m.
Proof.
  unfold Dynamic.getAccountBalances, Dynamic.bind.
  rewrite dynamic_run_tokensNeedUpdating.
  destruct (Dynamic.stale reachedText m); [|reflexivity].
  destruct (Dynamic._updateTokens m) as [[u|e] m1]; reflexivity.
Qed.

(** What a refresh can have done to the client, whatever it settled with:
    nothing, and then nothing was emitted; all four assignments, and then
    the event shows the client it left; or, when the sum has no value, the
    first three assignments and no event. *)
Lemma dynamic_updateTokens_effect m :
  let m' := snd (Dynamic._updateTokens m) in
  let w := Dynamic.world m in
  let w' := Dynamic.world m' in
  (Dynamic.authReplies w' = Dynamic.authReplies w \/
   Dynamic.authReplies w' = tl (Dynamic.authReplies w)) /\
  ((Dynamic.this m' = Dynamic.this m /\
    Dynamic.lastSeen (Dynamic.trace w') = Dynamic.lastSeen (Dynamic.trace w) /\
    Dynamic.emitted "refresh" (Dynamic.trace w') =
      Dynamic.emitted "refresh" (Dynamic.trace w) /\
    exists e, fst (Dynamic._updateTokens m) = Rejected e) \/
   (exists ms res rest body sum,
      Dynamic.authReplies w = Answered ms res :: rest /\
      ok res = true /\ json res = Some body /\ body <> JNull /\
      Dynamic.plus ((Dynamic.dateNow w + ms) / 1000)
                   (Dynamic.member body "expires_in") = Some sum /\
      Dynamic.this m' = Dynamic.refreshedBy body sum /\
      Dynamic.lastSeen (Dynamic.trace w') = Some (Dynamic.this m') /\
      Dynamic.emitted "refresh" (Dynamic.trace w') =
        S (Dynamic.emitted "refresh" (Dynamic.trace w))) \/
   (exists ms res rest body,
      Dynamic.authReplies w = Answered ms res :: rest /\
      ok res = true /\ json res = Some body /\ body <> JNull /\
      Dynamic.plus ((Dynamic.dateNow w + ms) / 1000)
                   (Dynamic.member body "expires_in") = None /\
      Dynamic.this m' = Dynamic.halfway (Dynamic.this m) body /\
      Dynamic.lastSeen (Dynamic.trace w') = Dynamic.lastSeen (Dynamic.trace w) /\
      Dynamic.emitted "refresh" (Dynamic.trace w') =
        Dynamic.emitted "refresh" (Dynamic.trace w) /\
      exists e, fst (Dynamic._updateTokens m) = Rejected e)).
Proof.
  destruct m as [c [now auth data ls tr]]. cbv zeta.
  rewrite dynamic_run_updateTokens.
  assert (Hsent : forall req,
            Dynamic.lastSeen (tr ++ [Dynamic.Fetch req]) = Dynamic.lastSeen tr /\
            Dynamic.emitted "refresh" (tr ++ [Dynamic.Fetch req]) =
              Dynamic.emitted "refresh" tr).
  { intros req. rewrite dynamic_lastSeen_app, dynamic_emitted_app. cbn.
    split; [reflexivity|lia]. }
  destruct (Dynamic.template _) as [token|].
  2:{ cbn [fst snd Dynamic.this Dynamic.world Dynamic.authReplies Dynamic.trace].
      split; [left; reflexivity|]. left.
      split; [reflexivity|]. split; [reflexivity|]. split; [reflexivity|].
      eexists. reflexivity. }
  cbv zeta. destruct (Hsent (Dynamic.refreshRequest token)) as [Hseen Hemit].
  destruct auth as [|[ms res|ms why] rest];
    [ | destruct (ok res) eqn:Hok;
        [ destruct (json res) as [body|] eqn:Hjson;
          [ destruct body as [|b|n|s|items|members];
            [ | | | | | ];
            try (destruct (Dynamic.plus ((now + ms) / 1000)
                             (Dynamic.member _ "expires_in")) as [sum|] eqn:Hplus)
          | ]
        | ]
      | ];
    cbn [fst snd Dynamic.this Dynamic.world Dynamic.authReplies Dynamic.trace
         Dynamic.dateNow tl];
    (split; [first [left; reflexivity | right; reflexivity]|]);
    first
      [ left; split; [reflexivity|]; split; [exact Hseen|]; split; [exact Hemit|];
        eexists; reflexivity
      | right; left; exists ms, res, rest; eexists; exists sum;
        split; [reflexivity|]; split; [exact Hok|]; split; [exact Hjson|];
        split; [discriminate|]; split; [exact Hplus|]; split; [reflexivity|];
        rewrite dynamic_lastSeen_app, dynamic_emitted_app, Hemit; cbn;
        split; [reflexivity|lia]
      | right; right; exists ms, res, rest; eexists;
        split; [reflexivity|]; split; [exact Hok|]; split; [exact Hjson|];
        split; [discriminate|]; split; [exact Hplus|]; split; [reflexivity|];
        split; [exact Hseen|]; split; [exact Hemit|]; eexists; reflexivity ].
Qed.

(* ================================================================= *)
(** ** The refresh of the running client *)




(* ================================================================= *)
(** ** The session state of the running client *)

Lemma dynamic_plus_value (t t' : Z) (v : option Json) :
  Dynamic.plus t v = None -> Dynamic.plus t' v = None.
Proof.
  destruct v as [[|b|n|s|items|members]|]; unfold Dynamic.plus; try discriminate.
  - destruct (Dynamic.ToString (JArray items)); [discriminate|reflexivity].
  - destruct (Dynamic.ToString (JObject members)); [discriminate|reflexivity].
Qed.

Lemma dynamic_plain_head ms res rest body t :
  forallb Dynamic.plain (Answered ms res :: rest) = true ->
  ok res = true -> json res = Some body -> body <> JNull ->
  Dynamic.plus t (Dynamic.member body "expires_in") <> None.
Proof.
  cbn [forallb Dynamic.plain]. intros H Hok Hjson Hbody Hnone.
  rewrite Hok, Hjson in H. apply andb_prop in H as [H _].
  unfold Dynamic.summable, Dynamic.getProperty in H.
  destruct body; [contradiction| | | | |];
    rewrite (dynamic_plus_value t 0 _ Hnone) in H; discriminate.
Qed.

Lemma forallb_tl {A : Type} (f : A -> bool) (l : list A) :
  forallb f l = true -> forallb f (tl l) = true.
Proof.
  destruct l as [|a l]; [trivial|]. cbn. intros H.
  apply andb_prop in H as [_ H]. exact H.
Qed.

(** A call on a machine whose token endpoint sends only summable bodies:
    nothing happens to the client and nothing is emitted, or one refresh
    has made all four assignments and emitted the client it left. *)
Lemma dynamic_after_call reachedText call m :
  forallb Dynamic.plain (Dynamic.authReplies (Dynamic.world m)) = true ->
  let m' := Dynamic.after reachedText call m in
  forallb Dynamic.plain (Dynamic.authReplies (Dynamic.world m')) = true /\
  ((Dynamic.this m' = Dynamic.this m /\
    Dynamic.lastSeen (Dynamic.trace (Dynamic.world m')) =
      Dynamic.lastSeen (Dynamic.trace (Dynamic.world m)) /\
    Dynamic.emitted "refresh" (Dynamic.trace (Dynamic.world m')) =
      Dynamic.emitted "refresh" (Dynamic.trace (Dynamic.world m))) \/
   (exists ms res rest body sum,
      Dynamic.authReplies (Dynamic.world m) = Answered ms res :: rest /\
      ok res = true /\ json res = Some body /\ body <> JNull /\
      Dynamic.plus ((Dynamic.dateNow (Dynamic.world m) + ms) / 1000)
                   (Dynamic.member body "expires_in") = Some sum /\
      Dynamic.this m' = Dynamic.refreshedBy body sum /\
      Dynamic.lastSeen (Dynamic.trace (Dynamic.world m')) = Some (Dynamic.this m') /\
      Dynamic.emitted "refresh" (Dynamic.trace (Dynamic.world m')) =
        S (Dynamic.emitted "refresh" (Dynamic.trace (Dynamic.world m))))).
Proof.
  intros Hplain.
  assert (Hdata : forall endpoint (stale : bool),
    let m' := snd (if stale then
                     match Dynamic._updateTokens m with
                     | (Fulfilled _, m1) => Dynamic._doApiRequest endpoint "GET" m1
                     | (Rejected e, m1) => (Rejected e, m1)
                     end
                   else Dynamic._doApiRequest endpoint "GET" m) in
    forallb Dynamic.plain (Dynamic.authReplies (Dynamic.world m')) = true /\
    ((Dynamic.this m' = Dynamic.this m /\
      Dynamic.lastSeen (Dynamic.trace (Dynamic.world m')) =
        Dynamic.lastSeen (Dynamic.trace (Dynamic.world m)) /\
      Dynamic.emitted "refresh" (Dynamic.trace (Dynamic.world m')) =
        Dynamic.emitted "refresh" (Dynamic.trace (Dynamic.world m))) \/
     (exists ms res rest body sum,
        Dynamic.authReplies (Dynamic.world m) = Answered ms res :: rest /\
        ok res = true /\ json res = Some body /\ body <> JNull /\
        Dynamic.plus ((Dynamic.dateNow (Dynamic.world m) + ms) / 1000)
                     (Dynamic.member body "expires_in") = Some sum /\
        Dynamic.this m' = Dynamic.refreshedBy body sum /\
        Dynamic.lastSeen (Dynamic.trace (Dynamic.world m')) = Some (Dynamic.this m') /\
        Dynamic.emitted "refresh" (Dynamic.trace (Dynamic.world m')) =
          S (Dynamic.emitted "refresh" (Dynamic.trace (Dynamic.world m)))))).
  { intros endpoint stale. cbv zeta. destruct stale.
    - pose proof (dynamic_updateTokens_effect m) as Heff. cbv zeta in Heff.
      destruct Heff as [Hauth Heff].
      assert (Hplain1 : forallb Dynamic.plain
                (Dynamic.authReplies (Dynamic.world (snd (Dynamic._updateTokens m)))) = true).
      { destruct Hauth as [-> | ->]; [exact Hplain|apply forallb_tl; exact Hplain]. }
      assert (Hstep : forall m',
                Dynamic.this m' = Dynamic.this (snd (Dynamic._updateTokens m)) ->
                Dynamic.authReplies (Dynamic.world m') =
                  Dynamic.authReplies (Dynamic.world (snd (Dynamic._updateTokens m))) ->
                Dynamic.lastSeen (Dynamic.trace (Dynamic.world m')) =
                  Dynamic.lastSeen
                    (Dynamic.trace (Dynamic.world (snd (Dynamic._updateTokens m)))) ->
                Dynamic.emitted "refresh" (Dynamic.trace (Dynamic.world m')) =
                  Dynamic.emitted "refresh"
                    (Dynamic.trace (Dynamic.world (snd (Dynamic._updateTokens m)))) ->
                forallb Dynamic.plain (Dynamic.authReplies (Dynamic.world m')) = true /\
                ((Dynamic.this m' = Dynamic.this m /\
                  Dynamic.lastSeen (Dynamic.trace (Dynamic.world m')) =
                    Dynamic.lastSeen (Dynamic.trace (Dynamic.world m)) /\
                  Dynamic.emitted "refresh" (Dynamic.trace (Dynamic.world m')) =
                    Dynamic.emitted "refresh" (Dynamic.trace (Dynamic.world m))) \/
                 (exists ms res rest body sum,
                    Dynamic.authReplies (Dynamic.world m) = Answered ms res :: rest /\
                    ok res = true /\ json res = Some body /\ body <> JNull /\
                    Dynamic.plus ((Dynamic.dateNow (Dynamic.world m) + ms) / 1000)
                                 (Dynamic.member body "expires_in") = Some sum /\
                    Dynamic.this m' = Dynamic.refreshedBy body sum /\
                    Dynamic.lastSeen (Dynamic.trace (Dynamic.world m')) =
                      Some (Dynamic.this m') /\
                    Dynamic.emitted "refresh" (Dynamic.trace (Dynamic.world m')) =
                      S (Dynamic.emitted "refresh" (Dynamic.trace (Dynamic.world m)))))).
      { intros m' Hthis Hauth' Hseen Hemit.
        split; [rewrite Hauth'; exact Hplain1|].
        rewrite Hthis, Hseen, Hemit.
        destruct Heff as [(H1 & H2 & H3 & _) | [Hfull | Hhalf]].
        - left. repeat split; assumption.
        - right. exact Hfull.
        - exfalso.
          destruct Hhalf as (ms & res & rest & body & Hhead & Hok & Hjson & Hbody & Hnone & _).
          rewrite Hhead in Hplain.
          exact (dynamic_plain_head ms res rest body _ Hplain Hok Hjson Hbody Hnone). }
      destruct (Dynamic._updateTokens m) as [[u|e] m1]; cbn [snd] in *.
      + destruct (dynamic_doApiRequest_footprint endpoint "GET" m1)
          as (Ha & Hb & Hc & Hd).
        apply Hstep; assumption.
      + apply Hstep; reflexivity.
    - destruct (dynamic_doApiRequest_footprint endpoint "GET" m)
        as (Ha & Hb & Hc & Hd).
      split; [rewrite Hb; exact Hplain|]. left. repeat split; assumption. }
  destruct call as [|accountNumber| | |]; cbv zeta; cbn [Dynamic.after].
  - rewrite dynamic_run_getAccounts. apply Hdata.
  - rewrite dynamic_run_getAccountBalances. apply Hdata.
  - split; [exact Hplain|]. left. repeat split.
  - split; [exact Hplain|]. left. repeat split.
  - split; [exact Hplain|]. left. repeat split.
Qed.

Lemma dynamic_reachable_invariant reachedText refreshToken0 m :
  Dynamic.reachable reachedText refreshToken0 m ->
  forallb Dynamic.plain (Dynamic.authReplies (Dynamic.world m)) = true /\
  match Dynamic.lastSeen (Dynamic.trace (Dynamic.world m)) with
  | None => Dynamic.this m = Dynamic.constructor refreshToken0
  | Some seen => Dynamic.this m = seen
  end.
Proof.
  induction 1 as [now auth data ls Hplain
                 | m call _ [IHplain IH]
                 | m now auth data ls _ [IHplain IH] Hplain].
  - split; [exact Hplain|reflexivity].
  - destruct (dynamic_after_call reachedText call m IHplain)
      as [Hplain' [(Hthis & Hseen & _) | Hfull]].
    + split; [exact Hplain'|]. rewrite Hseen, Hthis. exact IH.
    + split; [exact Hplain'|].
      destruct Hfull as (ms & res & rest & body & sum & _ & _ & _ & _ & _ & _ & Hseen & _).
      rewrite Hseen. reflexivity.
  - split; [exact Hplain|]. exact IH.
Qed.

(** C9, as the specification states it, fails: a refresh can assign
    [accessToken] and leave [expirationTime] as it was.  When the body of a
    200 has an [expires_in] that is an object with a member [toString], the
    sum in the fourth assignment throws a [TypeError] after the first three
    were made: the call is rejected, the client has the new access token,
    refresh token and server, its [expirationTime] is still [-1], and no
    event was emitted. *)
Lemma dynamic_getAccounts_assigns_token_without_expiry :
  let body := JObject [("access_token", JString "A1");
                       ("refresh_token", JString "R1");
                       ("api_server", JString "https://srv1/");
                       ("expires_in", JObject [("toString", JNumber 1)])] in
  let m := Dynamic.mkMachine (Dynamic.constructor "R0")
             (Dynamic.mkWorld 1700000000000
                [Answered 250 (mkResponse 200 "{}" (Some body))] [] [] []) in
  let m' := snd (Dynamic.getAccounts (fun _ _ => false) m) in
  fst (Dynamic.getAccounts (fun _ _ => false) m) =
    Rejected (TypeError "getCurrentTimeSeconds() + body.expires_in") /\
  Dynamic.accessToken (Dynamic.this m) = None /\
  Dynamic.accessToken (Dynamic.this m') = Some (JString "A1") /\
  Dynamic.refreshToken (Dynamic.this m') = Some (JString "R1") /\
  Dynamic.apiServer (Dynamic.this m') = Some (JString "https://srv1/") /\
  Dynamic.expirationTime (Dynamic.this m) = Dynamic.Seconds (-1) /\
  Dynamic.expirationTime (Dynamic.this m') = Dynamic.Seconds (-1) /\
  Dynamic.emitted "refresh" (Dynamic.trace (Dynamic.world m')) = 0%nat.
Proof. repeat split. Qed.

(** C9, amended: a client is constructed with [accessToken] undefined,
    [expirationTime] [-1], the refresh token of the caller and the default
    server.  As long as every body the token endpoint sends has an
    [expires_in] that can be added to a number, a call of a public method
    either leaves the four fields as they were and emits nothing, or it has
    received a success response with a body from the token endpoint, has
    set all four fields from it in one go ([expirationTime] to the sum of
    the arrival time in seconds and [expires_in]) and has emitted one
    ["refresh"] event that shows the client so made.  So in every state
    reachable from the construction the client is exactly what the last
    ["refresh"] event showed, or, when there was none, as it was
    constructed: [accessToken] and [expirationTime] are the pair one
    response gave, and never change one without the other. *)
Theorem dynamic_session_state_consistent reachedText refreshToken0 :
  (Dynamic.accessToken (Dynamic.constructor refreshToken0) = None /\
   Dynamic.expirationTime (Dynamic.constructor refreshToken0) = Dynamic.Seconds (-1) /\
   Dynamic.refreshToken (Dynamic.constructor refreshToken0) =
     Some (JString refreshToken0) /\
   Dynamic.apiServer (Dynamic.constructor refreshToken0) =
     Some (JString "https://api01.iq.questrade.com")) /\
  (forall call m,
     forallb Dynamic.plain (Dynamic.authReplies (Dynamic.world m)) = true ->
     let m' := Dynamic.after reachedText call m in
     (Dynamic.this m' = Dynamic.this m /\
      Dynamic.emitted "refresh" (Dynamic.trace (Dynamic.world m')) =
        Dynamic.emitted "refresh" (Dynamic.trace (Dynamic.world m))) \/
     (exists ms res rest body sum,
        Dynamic.authReplies (Dynamic.world m) = Answered ms res :: rest /\
        ok res = true /\ json res = Some body /\
        Dynamic.plus ((Dynamic.dateNow (Dynamic.world m) + ms) / 1000)
                     (Dynamic.member body "expires_in") = Some sum /\
        Dynamic.this m' =
          {| Dynamic.refreshToken := Dynamic.member body "refresh_token";
             Dynamic.accessToken := Dynamic.member body "access_token";
             Dynamic.expirationTime := sum;
             Dynamic.apiServer := Dynamic.member body "api_server" |} /\
        Dynamic.lastSeen (Dynamic.trace (Dynamic.world m')) = Some (Dynamic.this m') /\
        Dynamic.emitted "refresh" (Dynamic.trace (Dynamic.world m')) =
          S (Dynamic.emitted "refresh" (Dynamic.trace (Dynamic.world m))))) /\
  (forall m,
     Dynamic.reachable reachedText refreshToken0 m ->
     match Dynamic.lastSeen (Dynamic.trace (Dynamic.world m)) with
     | None => Dynamic.this m = Dynamic.constructor refreshToken0
     | Some seen => Dynamic.this m = seen
     end).
Proof.
  split; [repeat split|]. split.
  - intros call m Hplain m'. subst m'.
    destruct (dynamic_after_call reachedText call m Hplain)
      as [_ [(Hthis & _ & Hemit) | Hfull]].
    + left. split; assumption.
    + right.
      destruct Hfull as (ms & res & rest & body & sum & H1 & H2 & H3 & _ & H5 & H6 & H7 & H8).
      exists ms, res, rest, body, sum. repeat split; assumption.
  - intros m Hreach.
    exact (proj2 (dynamic_reachable_invariant reachedText refreshToken0 m Hreach)).
Qed.

Lemma dynamic_session_state_consistent_witness :
  let body := JObject [("access_token", JString "A1");
                       ("refresh_token", JString "R1");
                       ("api_server", JString "https://srv1/");
                       ("expires_in", JNumber 1800)] in
  let auth := [Answered 250 (mkResponse 200 "{}" (Some body))] in
  let m0 := Dynamic.mkMachine (Dynamic.constructor "R0")
              (Dynamic.mkWorld 1700000000000 auth [] [] []) in
  let m := Dynamic.after (fun _ _ => false) Dynamic.CallGetAccounts m0 in
  forallb Dynamic.plain auth = true /\
  Dynamic.reachable (fun _ _ => false) "R0" m /\
  Dynamic.this m =
    {| Dynamic.refreshToken := Some (JString "R1");
       Dynamic.accessToken := Some (JString "A1");
       Dynamic.expirationTime := Dynamic.Seconds 1700001800;
       Dynamic.apiServer := Some (JString "https://srv1/") |} /\
  match Dynamic.lastSeen (Dynamic.trace (Dynamic.world m)) with
  | None => Dynamic.this m = Dynamic.constructor "R0"
  | Some seen => Dynamic.this m = seen
  end.
Proof.
  split; [reflexivity|].
  split; [apply Dynamic.reach_call, Dynamic.reach_constructed; reflexivity|].
  split; [reflexivity|].
  exact (proj2 (proj2 (dynamic_session_state_consistent (fun _ _ => false) "R0")) _
           (Dynamic.reach_call (fun _ _ => false) "R0" _ Dynamic.CallGetAccounts
              (Dynamic.reach_constructed (fun _ _ => false) "R0" 1700000000000
                 [Answered 250 (mkResponse 200 "{}"
                    (Some (JObject [("access_token", JString "A1");
                                    ("refresh_token", JString "R1");
                                    ("api_server", JString "https://srv1/");
                                    ("expires_in", JNumber 1800)])))]
                 [] [] eq_refl))).
Defined.


(* ================================================================= *)
(** ** The errors of the running client *)

Lemma dynamic_notify_thrown ls c thrown :
  Dynamic.notify ls c = Some thrown ->
  exists l, In l ls /\ l c = Some thrown.
Proof.
  induction ls as [|l ls IH]; cbn; [discriminate|].
  destruct (l c) as [e|] eqn:Hl.
  - intros [= <-]. exists l. split; [left; reflexivity|exact Hl].
  - intros H. destruct (IH H) as (l' & Hin & Hl'). exists l'.
    split; [right; exact Hin|exact Hl'].
Qed.

Lemma dynamic_updateTokens_api_error m e :
  (forall l c e', In l (Dynamic.listeners (Dynamic.world m)) ->
                  l c <> Some (ApiError e')) ->
  fst (Dynamic._updateTokens m) = Rejected (ApiError e) ->
  ~ (200 <= code e < 300) /\
  ((message e = "Invalid refresh token" /\ code e = 400 /\ body e = "") \/
   (message e = "Failed to refresh tokens" /\ code e <> 400)).
Proof.
  destruct m as [c [now auth data ls tr]]. cbn [Dynamic.listeners Dynamic.world].
  intros Hquiet. rewrite dynamic_run_updateTokens.
  destruct (Dynamic.template _) as [token|]; [|discriminate].
  cbv zeta. destruct auth as [|[ms res|ms why] rest]; [discriminate| |discriminate].
  destruct (ok res) eqn:Hok.
  - destruct (json res) as [body|]; [|discriminate].
    destruct body; [discriminate| | | | |];
      (destruct (Dynamic.plus _ _) as [sum|]; [|discriminate];
       cbn [fst];
       destruct (Dynamic.notify ls _) as [thrown|] eqn:Hthrown; [|discriminate];
       intros [= ->];
       destruct (dynamic_notify_thrown _ _ _ Hthrown) as (l & Hin & Hl);
       exfalso; exact (Hquiet l _ e Hin Hl)).
  - cbn [fst]. pose proof (ok_false_status res Hok) as Hstat.
    unfold CODE_BAD_REQUEST.
    destruct (Z.eqb_spec (status res) 400) as [E|N]; intros [= <-];
      cbn [code message body].
    + split; [exact Hstat|]. left. repeat split. exact E.
    + split; [exact Hstat|]. right. split; [reflexivity|exact N].
Qed.

Lemma dynamic_doApiRequest_api_error endpoint m e :
  fst (Dynamic._doApiRequest endpoint "GET" m) = Rejected (ApiError e) ->
  Dynamic.apiErrorOf endpoint (snd (Dynamic._doApiRequest endpoint "GET" m)) e.
Proof.
  destruct m as [c [now auth data ls tr]].
  rewrite dynamic_run_doApiRequest.
  destruct (Dynamic.replaceTrailingSlash _) as [base|] eqn:Hbase; [|discriminate].
  destruct (Dynamic.template _) as [token|] eqn:Htoken; [|discriminate].
  cbv zeta. destruct data as [|[ms res|ms why] rest]; [discriminate| |discriminate].
  cbn [fst snd]. destruct (ok res) eqn:Hok.
  - destruct (json res); discriminate.
  - intros [= <-]. split; [exact (ok_false_status res Hok)|].
    right. right. exists tr, base, token.
    cbn [Dynamic.trace Dynamic.world Dynamic.this message].
    repeat split; assumption.
Qed.

(** X10: what a [QuestradeApiError] of a data method can be.  Errors that
    listeners throw aside, when [getAccounts] or [getAccountBalances] is
    rejected with a [QuestradeApiError] its [code] is a status some server
    answered with and never one of 200..299, and the error is one of three:
    "Invalid refresh token" with code 400 and an empty body; "Failed to
    refresh tokens" with a code other than 400; or "Failed to GET " followed
    by the URL of the last request the client sent, which is the server it
    holds, less one final slash, followed by the endpoint of the method. *)
Theorem dynamic_data_method_api_errors reachedText m :
  (forall l c e, In l (Dynamic.listeners (Dynamic.world m)) ->
                 l c <> Some (ApiError e)) ->
  (forall e,
     fst (Dynamic.getAccounts reachedText m) = Rejected (ApiError e) ->
     Dynamic.apiErrorOf "/v1/accounts"
       (snd (Dynamic.getAccounts reachedText m)) e) /\
  (forall accountNumber e,
     fst (Dynamic.getAccountBalances reachedText accountNumber m) =
       Rejected (ApiError e) ->
     Dynamic.apiErrorOf ("/v1/accounts/" ++ accountNumber ++ "/balances")
       (snd (Dynamic.getAccountBalances reachedText accountNumber m)) e).
Proof.
  intros Hquiet.
  assert (Hgen : forall endpoint (stale : bool) e,
    let run := if stale then
                 match Dynamic._updateTokens m with
                 | (Fulfilled _, m1) => Dynamic._doApiRequest endpoint "GET" m1
                 | (Rejected r, m1) => (Rejected r, m1)
                 end
               else Dynamic._doApiRequest endpoint "GET" m in
    fst run = Rejected (ApiError e) ->
    Dynamic.apiErrorOf endpoint (snd run) e).
  { intros endpoint stale e. cbv zeta. destruct stale.
    - pose proof (dynamic_updateTokens_api_error m e Hquiet) as Hupd.
      destruct (Dynamic._updateTokens m) as [[u|r] m1].
      + apply dynamic_doApiRequest_api_error.
      + cbn [fst snd] in *. intros [= ->].
        destruct (Hupd eq_refl) as [Hcode [Hi | Hf]].
        * split; [exact Hcode|]. left. exact Hi.
        * split; [exact Hcode|]. right. left. exact Hf.
    - apply dynamic_doApiRequest_api_error. }
  split.
  - intros e. rewrite dynamic_run_getAccounts. apply Hgen.
  - intros accountNumber e. rewrite dynamic_run_getAccountBalances. apply Hgen.
Qed.

Lemma dynamic_data_method_api_errors_witness :
  let c := {| Dynamic.refreshToken := Some (JString "R1");
              Dynamic.accessToken := Some (JString "A1");
              Dynamic.expirationTime := Dynamic.Seconds 1700001800;
              Dynamic.apiServer := Some (JString "https://srv1/") |} in
  let m := Dynamic.mkMachine c
             (Dynamic.mkWorld 1700000000000 []
                [Answered 80 (mkResponse 500 "server error" None)] [] []) in
  let e := mkApiError "Failed to GET https://srv1/v1/accounts" 500 "server error" in
  (forall l (seen : Dynamic.QuestradeClient) e',
     In l (Dynamic.listeners (Dynamic.world m)) -> l seen <> Some (ApiError e')) /\
  fst (Dynamic.getAccounts (fun _ _ => false) m) = Rejected (ApiError e) /\
  Dynamic.apiErrorOf "/v1/accounts" (snd (Dynamic.getAccounts (fun _ _ => false) m)) e.
Proof.
  split; [intros l seen e' []|]. split; [reflexivity|].
  exact (proj1 (dynamic_data_method_api_errors (fun _ _ => false)
                  (Dynamic.mkMachine
                     {| Dynamic.refreshToken := Some (JString "R1");
                        Dynamic.accessToken := Some (JString "A1");
                        Dynamic.expirationTime := Dynamic.Seconds 1700001800;
                        Dynamic.apiServer := Some (JString "https://srv1/") |}
                     (Dynamic.mkWorld 1700000000000 []
                        [Answered 80 (mkResponse 500 "server error" None)] [] []))
                  (fun l seen e' (H : In l []) => match H with end))
           (mkApiError "Failed to GET https://srv1/v1/accounts" 500 "server error")
           eq_refl).
Defined.

(* ================================================================= *)
(** ** The typed client is the running client on typed bodies *)






(* ================================================================= *)
(** ** Bodies that lack a member *)

Lemma dynamic_run_updateTokens_written c now ms res rest data ls tr token body sum :
  Dynamic.template (Dynamic.refreshToken c) = Some token ->
  ok res = true -> json res = Some body -> body <> JNull ->
  Dynamic.plus ((now + ms) / 1000) (Dynamic.member body "expires_in") = Some sum ->
  Dynamic._updateTokens
    (Dynamic.mkMachine c (Dynamic.mkWorld now (Answered ms res :: rest) data ls tr)) =
  (match Dynamic.notify ls (Dynamic.refreshedBy body sum) with
   | Some thrown => Rejected thrown
   | None => Fulfilled tt
   end,
   Dynamic.mkMachine (Dynamic.refreshedBy body sum)
     (Dynamic.mkWorld (now + ms) rest data ls
        (tr ++ [Dynamic.Fetch (Dynamic.refreshRequest token);
                Dynamic.Emit "refresh" (Dynamic.refreshedBy body sum)]))).
Proof.
  intros Htoken Hok Hjson Hbody Hplus.
  rewrite dynamic_run_updateTokens, Htoken. cbv zeta. rewrite Hok, Hjson.
  destruct body; [contradiction| | | | |]; rewrite Hplus;
    rewrite <- app_assoc; reflexivity.
Qed.

(** X14: a body without [expires_in] makes a token that never expires.  The
    sum of a number and [undefined] is [NaN], and no comparison with [NaN]
    holds: after a refresh with such a body and an access token that is not
    falsy, [_tokensNeedUpdating] answers false at every reading of the
    clock, and the data methods never send a token request again. *)
Theorem dynamic_missing_expires_in_never_stale
    reachedText c now ms res rest data ls tr token body w' :
  Dynamic.template (Dynamic.refreshToken c) = Some token ->
  ok res = true ->
  json res = Some body ->
  body <> JNull ->
  Dynamic.member body "expires_in" = None ->
  Dynamic.falsy (Dynamic.member body "access_token") = false ->
  let m1 := snd (Dynamic._updateTokens
                   (Dynamic.mkMachine c
                      (Dynamic.mkWorld now (Answered ms res :: rest) data ls tr))) in
  let m2 := Dynamic.mkMachine (Dynamic.this m1) w' in
  Dynamic.expirationTime (Dynamic.this m1) = Dynamic.NotANumber /\
  Dynamic._tokensNeedUpdating reachedText m2 = (Fulfilled false, m2) /\
  Dynamic.getAccounts reachedText m2 = Dynamic._doApiRequest "/v1/accounts" "GET" m2 /\
  (forall accountNumber,
     Dynamic.getAccountBalances reachedText accountNumber m2 =
       Dynamic._doApiRequest ("/v1/accounts/" ++ accountNumber ++ "/balances") "GET" m2).
Proof.
  intros Htoken Hok Hjson Hbody Hmissing Htruthy m1 m2. subst m2 m1.
  rewrite (dynamic_run_updateTokens_written c now ms res rest data ls tr token body
             Dynamic.NotANumber Htoken Hok Hjson Hbody).
  2:{ rewrite Hmissing. reflexivity. }
  cbn [snd Dynamic.this].
  set (m2 := Dynamic.mkMachine (Dynamic.refreshedBy body Dynamic.NotANumber) w').
  assert (Hfresh : Dynamic.stale reachedText m2 = false).
  { unfold Dynamic.stale, m2.
    cbn [Dynamic.this Dynamic.accessToken Dynamic.expirationTime Dynamic.refreshedBy].
    rewrite Htruthy. reflexivity. }
  split; [reflexivity|].
  split; [rewrite dynamic_run_tokensNeedUpdating, Hfresh; reflexivity|].
  split; [rewrite dynamic_run_getAccounts, Hfresh; reflexivity|].
  intros accountNumber. rewrite dynamic_run_getAccountBalances, Hfresh. reflexivity.
Qed.

Lemma dynamic_missing_expires_in_never_stale_witness :
  let c := Dynamic.constructor "R0" in
  let body := JObject [("access_token", JString "A1");
                       ("refresh_token", JString "R1");
                       ("api_server", JString "https://srv1/")] in
  let res := mkResponse 200 "{}" (Some body) in
  let w' := Dynamic.mkWorld 9999999999999 [] [] [] [] in
  let m1 := snd (Dynamic._updateTokens
                   (Dynamic.mkMachine c
                      (Dynamic.mkWorld 1700000000000 [Answered 250 res] [] [] []))) in
  let m2 := Dynamic.mkMachine (Dynamic.this m1) w' in
  Dynamic.template (Dynamic.refreshToken c) = Some "R0" /\
  ok res = true /\
  json res = Some body /\
  body <> JNull /\
  Dynamic.member body "expires_in" = None /\
  Dynamic.falsy (Dynamic.member body "access_token") = false /\
  Dynamic.expirationTime (Dynamic.this m1) = Dynamic.NotANumber /\
  Dynamic._tokensNeedUpdating (fun _ _ => true) m2 = (Fulfilled false, m2) /\
  Dynamic.getAccounts (fun _ _ => true) m2 =
    Dynamic._doApiRequest "/v1/accounts" "GET" m2 /\
  (forall accountNumber,
     Dynamic.getAccountBalances (fun _ _ => true) accountNumber m2 =
       Dynamic._doApiRequest ("/v1/accounts/" ++ accountNumber ++ "/balances") "GET" m2).
Proof.
  split; [reflexivity|]. split; [reflexivity|]. split; [reflexivity|].
  split; [discriminate|]. split; [reflexivity|]. split; [reflexivity|].
  exact (dynamic_missing_expires_in_never_stale (fun _ _ => true)
           (Dynamic.constructor "R0") 1700000000000 250
           (mkResponse 200 "{}"
              (Some (JObject [("access_token", JString "A1");
                              ("refresh_token", JString "R1");
                              ("api_server", JString "https://srv1/")])))
           [] [] [] [] "R0"
           (JObject [("access_token", JString "A1");
                     ("refresh_token", JString "R1");
                     ("api_server", JString "https://srv1/")])
           (Dynamic.mkWorld 9999999999999 [] [] [] [])
           eq_refl eq_refl eq_refl ltac:(discriminate) eq_refl eq_refl).
Defined.

(** X15: a body without [access_token] is accepted, and the data request
    goes out in the name of [undefined].  When a data method finds the token
    stale and the refresh is answered with a success whose body has no
    member [access_token] but a string as [api_server], and no listener
    throws, the method sends the token request, emits ["refresh"] and then
    sends its [GET] to that server with the header
    [Authorization: Bearer undefined]; the client holds no access token
    after, so the next data method refreshes again, whatever the time. *)
Theorem dynamic_missing_access_token_bearer_undefined
    reachedText c now ms res rest data ls tr token body sum server w' :
  fst (Dynamic._tokensNeedUpdating reachedText
         (Dynamic.mkMachine c
            (Dynamic.mkWorld now (Answered ms res :: rest) data ls tr))) =
    Fulfilled true ->
  Dynamic.template (Dynamic.refreshToken c) = Some token ->
  ok res = true ->
  json res = Some body ->
  body <> JNull ->
  Dynamic.plus ((now + ms) / 1000) (Dynamic.member body "expires_in") = Some sum ->
  Dynamic.member body "access_token" = None ->
  Dynamic.member body "api_server" = Some (JString server) ->
  Dynamic.notify ls (Dynamic.refreshedBy body sum) = None ->
  let m := Dynamic.mkMachine c
             (Dynamic.mkWorld now (Answered ms res :: rest) data ls tr) in
  let m' := snd (Dynamic.getAccounts reachedText m) in
  Dynamic.trace (Dynamic.world m') =
    (tr ++ [Dynamic.Fetch (Dynamic.refreshRequest token);
            Dynamic.Emit "refresh" (Dynamic.refreshedBy body sum);
            Dynamic.Fetch {| url := stripTrailingSlash server ++ "/v1/accounts";
                             method := "GET";
                             authorization := Some "Bearer undefined" |}])%list /\
  Dynamic.accessToken (Dynamic.this m') = None /\
  fst (Dynamic._tokensNeedUpdating reachedText
         (Dynamic.mkMachine (Dynamic.this m') w')) = Fulfilled true.
Proof.
  intros Hstale Htoken Hok Hjson Hbody Hplus Hno Hserver Hquiet m m'. subst m' m.
  rewrite dynamic_run_tokensNeedUpdating in Hstale. cbn [fst] in Hstale.
  injection Hstale as Hstale.
  rewrite dynamic_run_getAccounts, Hstale.
  rewrite (dynamic_run_updateTokens_written c now ms res rest data ls tr token body
             sum Htoken Hok Hjson Hbody Hplus), Hquiet.
  rewrite dynamic_run_doApiRequest.
  cbn [Dynamic.apiServer Dynamic.accessToken Dynamic.refreshedBy].
  rewrite Hserver, Hno.
  cbn [Dynamic.replaceTrailingSlash Dynamic.template]. cbv zeta.
  assert (Hlater : forall c',
            Dynamic.accessToken c' = None ->
            fst (Dynamic._tokensNeedUpdating reachedText (Dynamic.mkMachine c' w')) =
              Fulfilled true).
  { intros c' Hc'. rewrite dynamic_run_tokensNeedUpdating. unfold Dynamic.stale.
    cbn [fst Dynamic.this]. rewrite Hc'. reflexivity. }
  destruct data as [|[dms dres|dms why] drest];
    cbn [snd Dynamic.this Dynamic.world Dynamic.trace Dynamic.accessToken
         Dynamic.refreshedBy];
    rewrite <- app_assoc;
    (split; [reflexivity|]); (split; [exact Hno|]); apply Hlater; exact Hno.
Qed.

Lemma dynamic_missing_access_token_bearer_undefined_witness :
  let c := Dynamic.constructor "R0" in
  let body := JObject [("refresh_token", JString "R1");
                       ("api_server", JString "https://srv1/");
                       ("expires_in", JNumber 1800)] in
  let res := mkResponse 200 "{}" (Some body) in
  let sum := Dynamic.Seconds 1700001800 in
  let data := [Answered 80 (mkResponse 401 "Unauthorized" (@None Json))] in
  let w' := Dynamic.mkWorld 1700000000500 [] [] [] [] in
  let m := Dynamic.mkMachine c
             (Dynamic.mkWorld 1700000000000 [Answered 250 res] data [] []) in
  let m' := snd (Dynamic.getAccounts (fun _ _ => false) m) in
  fst (Dynamic._tokensNeedUpdating (fun _ _ => false) m) = Fulfilled true /\
  Dynamic.template (Dynamic.refreshToken c) = Some "R0" /\
  ok res = true /\
  json res = Some body /\
  body <> JNull /\
  Dynamic.plus ((1700000000000 + 250) / 1000) (Dynamic.member body "expires_in") =
    Some sum /\
  Dynamic.member body "access_token" = None /\
  Dynamic.member body "api_server" = Some (JString "https://srv1/") /\
  Dynamic.notify [] (Dynamic.refreshedBy body sum) = None /\
  Dynamic.trace (Dynamic.world m') =
    ([] ++ [Dynamic.Fetch (Dynamic.refreshRequest "R0");
            Dynamic.Emit "refresh" (Dynamic.refreshedBy body sum);
            Dynamic.Fetch {| url := stripTrailingSlash "https://srv1/" ++ "/v1/accounts";
                             method := "GET";
                             authorization := Some "Bearer undefined" |}])%list /\
  Dynamic.accessToken (Dynamic.this m') = None /\
  fst (Dynamic._tokensNeedUpdating (fun _ _ => false)
         (Dynamic.mkMachine (Dynamic.this m') w')) = Fulfilled true.
Proof.
  split; [reflexivity|]. split; [reflexivity|]. split; [reflexivity|].
  split; [reflexivity|]. split; [discriminate|]. split; [reflexivity|].
  split; [reflexivity|]. split; [reflexivity|]. split; [reflexivity|].
  exact (dynamic_missing_access_token_bearer_undefined (fun _ _ => false)
           (Dynamic.constructor "R0") 1700000000000 250
           (mkResponse 200 "{}"
              (Some (JObject [("refresh_token", JString "R1");
                              ("api_server", JString "https://srv1/");
                              ("expires_in", JNumber 1800)])))
           [] [Answered 80 (mkResponse 401 "Unauthorized" (@None Json))] [] [] "R0"
           (JObject [("refresh_token", JString "R1");
                     ("api_server", JString "https://srv1/");
                     ("expires_in", JNumber 1800)])
           (Dynamic.Seconds 1700001800) "https://srv1/"
           (Dynamic.mkWorld 1700000000500 [] [] [] [])
           eq_refl eq_refl eq_refl eq_refl ltac:(discriminate) eq_refl eq_refl
           eq_refl eq_refl).
Defined.

(** X16: a body whose [api_server] is not a string costs the data request.
    When a data method finds the token stale and the refresh is answered
    with a success whose body has anything but a string as [api_server]
    (nothing at all, in particular), the four assignments are made and the
    event is emitted, and then the method is rejected without having sent
    its data request: with the [TypeError] of [this.apiServer.replace],
    unless a listener threw before. *)
Theorem dynamic_server_not_a_string
    reachedText c now ms res rest data ls tr token body sum :
  fst (Dynamic._tokensNeedUpdating reachedText
         (Dynamic.mkMachine c
            (Dynamic.mkWorld now (Answered ms res :: rest) data ls tr))) =
    Fulfilled true ->
  Dynamic.template (Dynamic.refreshToken c) = Some token ->
  ok res = true ->
  json res = Some body ->
  body <> JNull ->
  Dynamic.plus ((now + ms) / 1000) (Dynamic.member body "expires_in") = Some sum ->
  (forall server, Dynamic.member body "api_server" <> Some (JString server)) ->
  let m := Dynamic.mkMachine c
             (Dynamic.mkWorld now (Answered ms res :: rest) data ls tr) in
  Dynamic.getAccounts reachedText m =
    (Rejected match Dynamic.notify ls (Dynamic.refreshedBy body sum) with
              | Some thrown => thrown
              | None => TypeError "this.apiServer.replace"
              end,
     Dynamic.mkMachine (Dynamic.refreshedBy body sum)
       (Dynamic.mkWorld (now + ms) rest data ls
          (tr ++ [Dynamic.Fetch (Dynamic.refreshRequest token);
                  Dynamic.Emit "refresh" (Dynamic.refreshedBy body sum)]))).
Proof.
  intros Hstale Htoken Hok Hjson Hbody Hplus Hserver m. subst m.
  rewrite dynamic_run_tokensNeedUpdating in Hstale. cbn [fst] in Hstale.
  injection Hstale as Hstale.
  rewrite dynamic_run_getAccounts, Hstale.
  rewrite (dynamic_run_updateTokens_written c now ms res rest data ls tr token body
             sum Htoken Hok Hjson Hbody Hplus).
  destruct (Dynamic.notify ls _) as [thrown|]; [reflexivity|].
  rewrite dynamic_run_doApiRequest.
  cbn [Dynamic.apiServer Dynamic.refreshedBy].
  destruct (Dynamic.member body "api_server") as [[|b|n|s|items|members]|] eqn:Hs;
    try reflexivity.
  exfalso. exact (Hserver s eq_refl).
Qed.

Lemma dynamic_server_not_a_string_witness :
  let c := Dynamic.constructor "R0" in
  let body := JObject [("access_token", JString "A1");
                       ("refresh_token", JString "R1");
                       ("expires_in", JNumber 1800)] in
  let res := mkResponse 200 "{}" (Some body) in
  let sum := Dynamic.Seconds 1700001800 in
  let data := [Answered 80 (mkResponse 200 "{}" (Some (JObject [])))] in
  let m := Dynamic.mkMachine c
             (Dynamic.mkWorld 1700000000000 [Answered 250 res] data [] []) in
  fst (Dynamic._tokensNeedUpdating (fun _ _ => false) m) = Fulfilled true /\
  Dynamic.template (Dynamic.refreshToken c) = Some "R0" /\
  ok res = true /\
  json res = Some body /\
  body <> JNull /\
  Dynamic.plus ((1700000000000 + 250) / 1000) (Dynamic.member body "expires_in") =
    Some sum /\
  (forall server, Dynamic.member body "api_server" <> Some (JString server)) /\
  Dynamic.getAccounts (fun _ _ => false) m =
    (Rejected match Dynamic.notify [] (Dynamic.refreshedBy body sum) with
              | Some thrown => thrown
              | None => TypeError "this.apiServer.replace"
              end,
     Dynamic.mkMachine (Dynamic.refreshedBy body sum)
       (Dynamic.mkWorld (1700000000000 + 250) [] data []
          ([] ++ [Dynamic.Fetch (Dynamic.refreshRequest "R0");
                  Dynamic.Emit "refresh" (Dynamic.refreshedBy body sum)]))).
Proof.
  split; [reflexivity|]. split; [reflexivity|]. split; [reflexivity|].
  split; [reflexivity|]. split; [discriminate|]. split; [reflexivity|].
  split; [intros server; discriminate|].
  exact (dynamic_server_not_a_string (fun _ _ => false)
           (Dynamic.constructor "R0") 1700000000000 250
           (mkResponse 200 "{}"
              (Some (JObject [("access_token", JString "A1");
                              ("refresh_token", JString "R1");
                              ("expires_in", JNumber 1800)])))
           [] [Answered 80 (mkResponse 200 "{}" (Some (JObject [])))] [] [] "R0"
           (JObject [("access_token", JString "A1");
                     ("refresh_token", JString "R1");
                     ("expires_in", JNumber 1800)])
           (Dynamic.Seconds 1700001800)
           eq_refl eq_refl eq_refl eq_refl ltac:(discriminate) eq_refl
           ltac:(intros server; discriminate)).
Defined.
